(** * Entra token to PostgreSQL credentials: a model of [entra_connection.py]

    The development embeds the functions of [src/python/entra_connection.py]
    ([decode_jwt], [parse_principal_name], [get_entra_conninfo] and
    [AsyncEntraConnection.connect]) and proves what they do.

    Conventions of the embedding:
    - a Python [str] is a [string]; its characters are the code points
      below 256;
    - a Python value is a [pyval], a [dict] with string keys a
      [gmap string pyval];
    - a call that can raise returns a [result]: [Ok v] or [Raise e];
    - the identity provider and the database driver are the environment:
      code that talks to them is written in the monad [M], which threads the
      environment and records every call in a trace. *)

From Stdlib Require Import ZArith Lia List Ascii String Bool.
From Stdlib Require Import PrimFloat DecimalString.
From stdpp Require Import gmap strings list fin_maps.

Local Open Scope Z_scope.

(** ** Python strings *)

Module PyStr.

Definition slash : ascii := "/"%char.
Definition dot : ascii := "."%char.
Definition equals_sign : ascii := "="%char.

(** [bool(s)]: a string is truthy when it is not empty. *)
Definition nonempty (s : string) : bool :=
  match s with
  | EmptyString => false
  | String _ _ => true
  end.

(** [s.rfind(c)] for a one-character needle: the highest index at which
    [c] occurs, [-1] when it does not occur. *)
Fixpoint rfind (c : ascii) (s : string) : Z :=
  match s with
  | EmptyString => -1
  | String a s' =>
      let r := rfind c s' in
      if 0 <=? r then r + 1
      else if Ascii.eqb a c then 0 else -1
  end.

Fixpoint take (n : nat) (s : string) : string :=
  match n, s with
  | O, _ => EmptyString
  | S _, EmptyString => EmptyString
  | S n', String a s' => String a (take n' s')
  end.

Fixpoint drop (n : nat) (s : string) : string :=
  match n, s with
  | O, _ => s
  | S _, EmptyString => EmptyString
  | S n', String _ s' => drop n' s'
  end.

(** [s[:i]] and [s[i:]] for an index [0 <= i]; the source only slices at
    indices computed from a successful [rfind]. *)
Definition slice_to (s : string) (i : Z) : string := take (Z.to_nat i) s.
Definition slice_from (s : string) (i : Z) : string := drop (Z.to_nat i) s.

(** [c.lower()] on the code points below 256: the ASCII capitals and the
    Latin-1 capitals (all of U+00C0..U+00DE but the multiplication sign)
    move up by 32. *)
Definition lower_char (c : ascii) : ascii :=
  let n := N_of_ascii c in
  if ((65 <=? n) && (n <=? 90))%N
     || ((192 <=? n) && (n <=? 222) && negb (n =? 215))%N
  then ascii_of_N (n + 32) else c.

Fixpoint lower (s : string) : string :=
  match s with
  | EmptyString => EmptyString
  | String a s' => String (lower_char a) (lower s')
  end.

(** [s.endswith(suffix)] *)
Definition endswith (s suffix : string) : bool :=
  let n := String.length s in
  let k := String.length suffix in
  (k <=? n)%nat && String.eqb (drop (n - k) s) suffix.

Fixpoint contains (c : ascii) (s : string) : bool :=
  match s with
  | EmptyString => false
  | String a s' => Ascii.eqb a c || contains c s'
  end.

(** [s.split(c)] for a one-character separator: never the empty list. *)
Fixpoint split (c : ascii) (s : string) : list string :=
  match s with
  | EmptyString => [EmptyString]
  | String a s' =>
      if Ascii.eqb a c then EmptyString :: split c s'
      else match split c s' with
           | [] => [String a EmptyString]
           | w :: ws => String a w :: ws
           end
  end.

(** ["=" * n]: the empty string when [n <= 0]. *)
Definition replicate (a : ascii) (n : Z) : string :=
  Nat.iter (Z.to_nat n) (String a) EmptyString.

End PyStr.

(** ** Python values *)

(** A credential is a handle on the identity provider: the process-wide
    default, or one supplied by the caller, synchronous or asynchronous. *)
Inductive credential :=
| DefaultAzureCredential
| TokenCredential (id : nat)
| AsyncTokenCredential (id : nat).

(** [get_default_azure_credentials()]: cached, so always the same handle. *)
Definition get_default_azure_credentials : credential := DefaultAzureCredential.

(** What a keyword argument or a claim can hold: [None], a string, a
    credential, what [json.loads] builds besides (booleans, integers,
    floats, lists, objects), or any other object, of which only the truth
    value matters here. *)
#[warnings="-register-all"]
Inductive pyval :=
| PNone
| PStr (s : string)
| PCred (c : credential)
| PObj (truth : bool)
| PBool (b : bool)
| PInt (n : Z)
| PFloat (x : float)
| PList (items : list pyval)
| PDict (members : gmap string pyval).

(** [bool(v)] *)
Definition pytruthy (v : pyval) : bool :=
  match v with
  | PNone => false
  | PStr s => PyStr.nonempty s
  | PCred _ => true
  | PObj b => b
  | PBool b => b
  | PInt n => negb (n =? 0)
  | PFloat x => negb (PrimFloat.eqb x PrimFloat.zero)
  | PList items => match items with [] => false | _ :: _ => true end
  | PDict members => negb (bool_decide (members = ∅))
  end.

(** [isinstance(v, (TokenCredential, AsyncTokenCredential))] *)
Definition isinstance_credential (v : pyval) : bool :=
  match v with
  | PCred _ => true
  | _ => false
  end.

Definition as_credential (v : pyval) : option credential :=
  match v with
  | PCred c => Some c
  | _ => None
  end.

(** [d.get(k)] on a dictionary *)
Definition dict_get (d : gmap string pyval) (k : string) : pyval :=
  default PNone (d !! k).

Definition pyval_of_str (v : option string) : pyval :=
  match v with
  | Some s => PStr s
  | None => PNone
  end.

(** ** Exceptions and results *)

(** [AttributeError] names the object and the attribute it lacks. *)

Inductive exn :=
| IndexError
| KeyError (key : string)
| AttributeError (obj : pyval) (attr : string)
| ValueError (msg : string)
| BinasciiError (msg : string)
| UnboundLocalError (name : string)
| JSONDecodeError
| ExternalError (code : nat).

Inductive result (A : Type) :=
| Ok (a : A)
| Raise (e : exn).
Arguments Ok {A} a.
Arguments Raise {A} e.

(** ** [base64.urlsafe_b64decode]

    The source hands the padded payload to the standard library.  The model
    follows CPython: the [str] argument is encoded as ASCII, [-] and [_] are
    translated to [+] and [/], and [binascii.a2b_base64] runs with strict
    mode off.  Bytes are integers in [0, 256). *)

Module Base64.

(** [table_a2b_base64]: the six-bit value of a character of the standard
    alphabet, nothing for every other character. *)
Definition table_a2b (c : ascii) : option Z :=
  let n := Z.of_N (N_of_ascii c) in
  if (65 <=? n) && (n <=? 90) then Some (n - 65)
  else if (97 <=? n) && (n <=? 122) then Some (n - 71)
  else if (48 <=? n) && (n <=? 57) then Some (n + 4)
  else if n =? 43 then Some 62
  else if n =? 47 then Some 63
  else None.

(** A store to an [unsigned char] keeps the low eight bits. *)
Definition store (v : Z) : Z := v mod 256.

Definition emit (b : Z) (r : result (list Z)) : result (list Z) :=
  match r with
  | Ok bs => Ok (b :: bs)
  | Raise e => Raise e
  end.

(** The decimal numeral of a count. *)
Definition decimal (n : Z) : string :=
  NilZero.string_of_uint (N.to_uint (Z.to_N n)).

(** The two messages of [binascii.Error]; the first carries the number of
    data characters read. *)
Definition invalid_length (data_characters : Z) : string :=
  "Invalid base64-encoded string: number of data characters ("
  +:+ decimal data_characters
  +:+ ") cannot be 1 more than a multiple of 4".
Definition INCORRECT_PADDING : string := "Incorrect padding".

(** The decoding loop of [binascii.a2b_base64].  [quad_pos] counts the
    data characters of the current group of four, [leftchar] holds the
    bits not yet written, [pads] the padding characters seen since the
    last data character, [written] the bytes written so far.  A pad that
    completes a group ends the decoding ([goto done]); any other pad and
    every character outside the alphabet is skipped. *)
Fixpoint a2b_loop (quad_pos leftchar pads written : Z) (s : string)
  : result (list Z) :=
  match s with
  | EmptyString =>
      if quad_pos =? 0 then Ok []
      else if quad_pos =? 1 then
        Raise (BinasciiError (invalid_length (written / 3 * 4 + 1)))
      else Raise (BinasciiError INCORRECT_PADDING)
  | String c s' =>
      if Ascii.eqb c PyStr.equals_sign then
        if (2 <=? quad_pos) && (4 <=? quad_pos + (pads + 1)) then Ok []
        else a2b_loop quad_pos leftchar
               (if 2 <=? quad_pos then pads + 1 else pads) written s'
      else
        match table_a2b c with
        | None => a2b_loop quad_pos leftchar pads written s'
        | Some v =>
            if quad_pos =? 0 then a2b_loop 1 v 0 written s'
            else if quad_pos =? 1 then
              emit (store (Z.lor (Z.shiftl leftchar 2) (Z.shiftr v 4)))
                (a2b_loop 2 (Z.land v 15) 0 (written + 1) s')
            else if quad_pos =? 2 then
              emit (store (Z.lor (Z.shiftl leftchar 4) (Z.shiftr v 2)))
                (a2b_loop 3 (Z.land v 3) 0 (written + 1) s')
            else
              emit (store (Z.lor (Z.shiftl leftchar 6) v))
                (a2b_loop 0 0 0 (written + 1) s')
        end
  end.

Definition a2b_base64 (s : string) : result (list Z) := a2b_loop 0 0 0 0 s.

Fixpoint is_ascii (s : string) : bool :=
  match s with
  | EmptyString => true
  | String c s' => (N_of_ascii c <? 128)%N && is_ascii s'
  end.

(** [bytes.translate(_urlsafe_decode_translation)] *)
Definition urlsafe_char (c : ascii) : ascii :=
  if Ascii.eqb c "-"%char then "+"%char
  else if Ascii.eqb c "_"%char then "/"%char
  else c.

Fixpoint translate (s : string) : string :=
  match s with
  | EmptyString => EmptyString
  | String c s' => String (urlsafe_char c) (translate s')
  end.

Definition NOT_ASCII : string :=
  "string argument should contain only ASCII characters".

Definition urlsafe_b64decode (s : string) : result (list Z) :=
  if is_ascii s then a2b_base64 (translate s)
  else Raise (ValueError NOT_ASCII).

(** The encoding a token issuer applies to the claims (RFC 7515: base64url
    without padding).  It is the yardstick for [urlsafe_b64decode]; the
    source never encodes. *)
Definition alphabet_char (v : Z) : ascii :=
  if v <? 26 then ascii_of_N (Z.to_N (v + 65))
  else if v <? 52 then ascii_of_N (Z.to_N (v + 71))
  else if v <? 62 then ascii_of_N (Z.to_N (v - 4))
  else if v =? 62 then "-"%char
  else "_"%char.

Fixpoint urlsafe_b64encode_nopad (bs : list Z) : string :=
  match bs with
  | [] => EmptyString
  | [a] =>
      String (alphabet_char (Z.shiftr a 2))
        (String (alphabet_char (Z.shiftl (Z.land a 3) 4)) EmptyString)
  | [a; b] =>
      String (alphabet_char (Z.shiftr a 2))
        (String (alphabet_char
                   (Z.lor (Z.shiftl (Z.land a 3) 4) (Z.shiftr b 4)))
           (String (alphabet_char (Z.shiftl (Z.land b 15) 2)) EmptyString))
  | a :: b :: c :: rest =>
      String (alphabet_char (Z.shiftr a 2))
        (String (alphabet_char
                   (Z.lor (Z.shiftl (Z.land a 3) 4) (Z.shiftr b 4)))
           (String (alphabet_char
                      (Z.lor (Z.shiftl (Z.land b 15) 2) (Z.shiftr c 6)))
              (String (alphabet_char (Z.land c 63))
                 (urlsafe_b64encode_nopad rest))))
  end.

(** The characters [urlsafe_b64decode] reads as data: the base64url
    alphabet, and [+] and [/] of the standard one. *)
Definition in_alphabet (c : ascii) : bool :=
  (N_of_ascii c <? 128)%N && bool_decide (is_Some (table_a2b (urlsafe_char c))).

Fixpoint all_in_alphabet (s : string) : bool :=
  match s with
  | EmptyString => true
  | String c s' => in_alphabet c && all_in_alphabet s'
  end.

End Base64.

(** ** Claims and principal names *)

Definition and_then {A B} (r : result A) (k : A → result B) : result B :=
  match r with
  | Ok a => k a
  | Raise e => Raise e
  end.

(** [claims.get(name)]: the claim, [None] when it is absent; what
    [json.loads] returned need not be an object, and then there is no
    [get]. *)
Definition claims_get (claims : pyval) (name : string) : result pyval :=
  match claims with
  | PDict members => Ok (dict_get members name)
  | _ => Raise (AttributeError claims "get")
  end.

(** Python's [a or b], with [a] evaluated already: [a] when it is truthy,
    otherwise what evaluating [b] gives. *)
Definition py_or (a : pyval) (b : result pyval) : result pyval :=
  if pytruthy a then Ok a else b.

Definition MANAGED_IDENTITY_SEGMENT : string :=
  "providers/microsoft.managedidentity/userassignedidentities".

(** [parse_principal_name], lines 89-113.  Only a string has [rfind]. *)
Definition parse_principal_name (xms_mirid : pyval) : result pyval :=
  if negb (pytruthy xms_mirid) then Ok PNone
  else
    match xms_mirid with
    | PStr s =>
        let last_slash_index := PyStr.rfind PyStr.slash s in
        if last_slash_index =? -1 then Ok PNone
        else
          let beginning := PyStr.slice_to s last_slash_index in
          let principal_name := PyStr.slice_from s (last_slash_index + 1) in
          if negb (PyStr.nonempty principal_name)
             || negb (PyStr.endswith (PyStr.lower beginning)
                        MANAGED_IDENTITY_SEGMENT)
          then Ok PNone
          else Ok (PStr principal_name)
    | _ => Raise (AttributeError xms_mirid "rfind")
    end.

(** The username expression of [get_entra_conninfo], lines 135-140 and again
    148-153: the managed-identity name, else [upn], else
    [preferred_username], else [unique_name]; a later operand is evaluated
    only when the earlier ones are falsy. *)
Definition username_of_claims (claims : pyval) : result pyval :=
  and_then (claims_get claims "xms_mirid") (fun xms_mirid =>
  and_then (parse_principal_name xms_mirid) (fun name =>
  py_or name
    (and_then (claims_get claims "upn") (fun upn =>
     py_or upn
       (and_then (claims_get claims "preferred_username")
          (fun preferred_username =>
           py_or preferred_username (claims_get claims "unique_name"))))))).

(** ** Scopes and the environment *)

Definition AZURE_DB_FOR_POSTGRES_SCOPE : string :=
  "https://ossrdbms-aad.database.windows.net/.default".
Definition AZURE_MANAGEMENT_SCOPE : string :=
  "https://management.azure.com/.default".

(** Calls that leave the process. *)
Inductive event :=
| EvGetToken (c : credential) (scope : string)
| EvConnect (args : list pyval) (kwargs : gmap string pyval).

Definition USERNAME_ERROR : string :=
  "Could not determine username from token claims. Ensure the identity has the proper Azure Entra ID attributes.".
Definition CREDENTIAL_ERROR : string :=
  "credential must be a TokenCredential or AsyncTokenCredential".

(** ** The program *)

(** The padding of [decode_jwt], line 85: ["=" * (4 - len(payload) % 4)]. *)
Definition jwt_padding (payload : string) : string :=
  PyStr.replicate PyStr.equals_sign
    (4 - Z.of_nat (String.length payload) mod 4).

Section Program.

(** [json.loads] on the decoded payload: the value of the JSON document,
    or the error for bytes that are none. *)
Variable json_loads : list Z → result pyval.

(** The identity provider behind [credential.get_token(scope)] and the
    driver behind [AsyncConnection.connect]: both answer from a state of
    their own, and may raise. *)
Variable Env : Type.
Variable Conn : Type.
Variable get_token : credential → string → Env → result string * Env.
Variable base_connect :
  list pyval → gmap string pyval → Env → result Conn * Env.

(** [decode_jwt], lines 75-87. *)
Definition decode_jwt (token : string) : result pyval :=
  match PyStr.split PyStr.dot token !! 1%nat with
  | None => Raise IndexError
  | Some payload =>
      let padding := jwt_padding payload in
      match Base64.urlsafe_b64decode (payload +:+ padding) with
      | Raise e => Raise e
      | Ok decoded_payload => json_loads decoded_payload
      end
  end.

Record World := { env : Env; trace : list event }.

Definition M (A : Type) : Type := World → result A * World.

Definition ret {A} (a : A) : M A := fun w => (Ok a, w).
Definition raise {A} (e : exn) : M A := fun w => (Raise e, w).
Definition bind {A B} (m : M A) (k : A → M B) : M B :=
  fun w =>
    match m w with
    | (Ok a, w') => k a w'
    | (Raise e, w') => (Raise e, w')
    end.
Definition lift {A} (r : result A) : M A := fun w => (r, w).

Notation "x <- m ;; k" := (bind m (fun x => k))
  (at level 100, m at next level, right associativity).

(** [credential.get_token(scope).token] *)
Definition call_get_token (c : credential) (scope : string) : M string :=
  fun w =>
    let (r, e) := get_token c scope (env w) in
    (r, {| env := e; trace := trace w ++ [EvGetToken c scope] |}).

(** The parent class's [connect], called with the positional and the
    keyword arguments. *)
Definition call_connect (args : list pyval) (kwargs : gmap string pyval)
  : M Conn :=
  fun w =>
    let (r, e) := base_connect args kwargs (env w) in
    (r, {| env := e; trace := trace w ++ [EvConnect args kwargs] |}).

(** [get_entra_token_async], lines 33-46.  Entering and leaving the
    credential around the call is the provider's business. *)
Definition get_entra_token_async (c : credential) (scope : string)
  : M string :=
  call_get_token c scope.

(** [get_entra_token], lines 49-62. *)
Definition get_entra_token (c : option credential) (scope : string)
  : M string :=
  let c := default get_default_azure_credentials c in
  call_get_token c scope.

(** The two branches on [isinstance(credential, AsyncTokenCredential)],
    lines 130-133 and 143-146. *)
Definition acquire (c : option credential) (scope : string) : M string :=
  match c with
  | Some (AsyncTokenCredential _ as a) => get_entra_token_async a scope
  | _ => get_entra_token c scope
  end.

(** [get_entra_conninfo], lines 116-161. *)
Definition get_entra_conninfo (c : option credential)
  : M (gmap string pyval) :=
  token <- acquire c AZURE_DB_FOR_POSTGRES_SCOPE ;;
  claims <- lift (decode_jwt token) ;;
  username <- lift (username_of_claims claims) ;;
  tu <- (if negb (pytruthy username) then
           token <- acquire c AZURE_MANAGEMENT_SCOPE ;;
           claims <- lift (decode_jwt token) ;;
           username <- lift (username_of_claims claims) ;;
           ret (token, username)
         else ret (token, username)) ;;
  let token := fst tu in
  let username := snd tu in
  if negb (pytruthy username) then raise (ValueError USERNAME_ERROR)
  else ret ({[ "user" := username;
               "password" := PStr token ]} : gmap string pyval).

(** [d[k]] *)
Definition dict_item (d : gmap string pyval) (k : string) : M pyval :=
  match d !! k with
  | Some v => ret v
  | None => raise (KeyError k)
  end.

(** [AsyncEntraConnection.connect], lines 167-194.  [entra_conninfo] is
    bound only inside the branch that derives credentials; line 194 reads
    it on both paths.  In [kwargs | entra_conninfo] the right operand wins
    on a shared key; [∪] on maps prefers its left operand. *)
Definition connect (args : list pyval) (kwargs : gmap string pyval)
  : M Conn :=
  let credential := dict_get kwargs "credential" in
  let kwargs := delete "credential" kwargs in
  if pytruthy credential && negb (isinstance_credential credential) then
    raise (ValueError CREDENTIAL_ERROR)
  else if negb (pytruthy (dict_get kwargs "user"))
          || negb (pytruthy (dict_get kwargs "password")) then
    let credential :=
      if pytruthy credential then credential
      else PCred get_default_azure_credentials in
    entra_conninfo <- get_entra_conninfo (as_credential credential) ;;
    password <- dict_item entra_conninfo "password" ;;
    let kwargs := <["password" := password]> kwargs in
    kwargs <- (if negb (pytruthy (dict_get kwargs "user")) then
                 user <- dict_item entra_conninfo "user" ;;
                 ret (<["user" := user]> kwargs)
               else ret kwargs) ;;
    call_connect args (entra_conninfo ∪ kwargs)
  else
    raise (UnboundLocalError "entra_conninfo").

End Program.

Arguments env {Env} w.
Arguments trace {Env} w.
Arguments Build_World {Env} env trace.
Arguments ret {Env A} a w.
Arguments raise {Env A} e w.
Arguments bind {Env A B} m k w.
Arguments lift {Env A} r w.

(** ** Vocabulary for the statements *)

(** The credential whose [get_token] runs: the given one, or the default. *)
Definition effective (c : option credential) : credential :=
  default get_default_azure_credentials c.

(** The world after the calls [evs] that left the environment in [e]. *)
Definition after {Env} (w : World Env) (e : Env) (evs : list event)
  : World Env :=
  {| env := e; trace := trace w ++ evs |}.

(** The mapping [get_entra_conninfo] returns. *)
Definition conninfo (username : pyval) (token : string)
  : gmap string pyval :=
  {[ "user" := username; "password" := PStr token ]}.

(** What makes [name] the principal name in the resource path [path]: the
    path is not empty and has a slash, [name] is the non-empty text after
    the last slash, and the text before that slash, in lower case, ends with
    the managed-identity segment. *)
Definition is_principal_name_of (path name : string) : Prop :=
  path ≠ EmptyString
  ∧ PyStr.contains PyStr.slash path = true
  ∧ ∃ prefix,
      path = prefix +:+ String PyStr.slash name
      ∧ PyStr.contains PyStr.slash name = false
      ∧ name ≠ EmptyString
      ∧ ∃ q, PyStr.lower prefix = q +:+ MANAGED_IDENTITY_SEGMENT.

(** The bytes a group of four six-bit values decodes to, as the loop writes
    them. *)
Definition byte0 (v0 v1 : Z) : Z :=
  Base64.store (Z.lor (Z.shiftl v0 2) (Z.shiftr v1 4)).
Definition byte1 (v1 v2 : Z) : Z :=
  Base64.store (Z.lor (Z.shiftl (Z.land v1 15) 4) (Z.shiftr v2 2)).
Definition byte2 (v2 v3 : Z) : Z :=
  Base64.store (Z.lor (Z.shiftl (Z.land v2 3) 6) v3).

(** [c] is read as the data value [v] by the decoding loop. *)
Definition is_data (c : ascii) (v : Z) : Prop :=
  Ascii.eqb c PyStr.equals_sign = false ∧ Base64.table_a2b c = Some v.

Definition is_byte (b : Z) : Prop := 0 ≤ b < 256.

(** The padding the spec asks for: none when the length is a multiple of
    four. *)
Definition canonical_padding (payload : string) : string :=
  PyStr.replicate PyStr.equals_sign
    ((4 - Z.of_nat (String.length payload) mod 4) mod 4).

(** ** A scripted environment

    A provider that answers from a script, a parser that knows four
    documents and a driver that always connects: enough to run the program
    on concrete requests. *)

Module Demo.

(** The bytes of the JSON documents for no claims, for the claim [upn]
    with the string [bob], for the claim [upn] with the number 7, and for
    the claim [xms_mirid] with the number 7. *)
Definition NO_CLAIMS : list Z := [123; 125].
Definition BOB_CLAIMS : list Z :=
  [123; 34; 117; 112; 110; 34; 58; 34; 98; 111; 98; 34; 125].
Definition SEVEN_CLAIMS : list Z :=
  [123; 34; 117; 112; 110; 34; 58; 55; 125].
Definition NUMERIC_PATH_CLAIMS : list Z :=
  [123; 34; 120; 109; 115; 95; 109; 105; 114; 105; 100; 34; 58; 55; 125].

Definition json_loads (bs : list Z) : result pyval :=
  if bool_decide (bs = NO_CLAIMS) then Ok (PDict ∅)
  else if bool_decide (bs = BOB_CLAIMS) then Ok (PDict {[ "upn" := PStr "bob" ]})
  else if bool_decide (bs = SEVEN_CLAIMS) then Ok (PDict {[ "upn" := PInt 7 ]})
  else if bool_decide (bs = NUMERIC_PATH_CLAIMS)
       then Ok (PDict {[ "xms_mirid" := PInt 7 ]})
  else Raise JSONDecodeError.

(** Tokens whose payloads are the three documents in base64url. *)
Definition TOKEN_NO_CLAIMS : string := "h.e30.s".
Definition TOKEN_BOB : string := "h.eyJ1cG4iOiJib2IifQ.s".

(** The provider hands out the answers of its script, one per call. *)
Definition Env : Type := list (result string).

Definition get_token (c : credential) (scope : string) (script : Env)
  : result string * Env :=
  match script with
  | [] => (Raise (ExternalError 0), [])
  | answer :: rest => (answer, rest)
  end.

Definition base_connect (args : list pyval) (kwargs : gmap string pyval)
    (script : Env) : result unit * Env :=
  (Ok tt, script).

Definition start (script : Env) : World Env :=
  {| env := script; trace := [] |}.

Definition derive : option credential → M Env (gmap string pyval) :=
  get_entra_conninfo json_loads Env get_token.

Definition connect : list pyval → gmap string pyval → M Env unit :=
  connect json_loads Env unit get_token base_connect.

(** Requests used below. *)
Definition EXPLICIT_REQUEST : gmap string pyval :=
  {[ "user" := PStr "svc"; "password" := PStr "secret" ]}.
Definition USER_ONLY_REQUEST : gmap string pyval :=
  {[ "user" := PStr "alice"; "host" := PStr "db.example" ]}.
Definition USER_ONLY_FORWARDED : gmap string pyval :=
  {[ "user" := PStr "bob"; "password" := PStr TOKEN_BOB;
     "host" := PStr "db.example" ]}.
Definition PASSWORD_ONLY_REQUEST : gmap string pyval :=
  {[ "password" := PStr "stale"; "host" := PStr "db.example" ]}.
Definition PASSWORD_ONLY_FORWARDED : gmap string pyval :=
  {[ "user" := PStr "bob"; "password" := PStr TOKEN_BOB;
     "host" := PStr "db.example" ]}.

End Demo.

(** ** The sample and the formats the source documents *)

Module Sample.

(** [os.getenv(name)] *)
Definition getenv (environ : gmap string string) (name : string) : pyval :=
  pyval_of_str (environ !! name).

(** The keyword arguments [sample.py] gives the pool for every connection,
    lines 26-31, with [hostname] and [database] of lines 11-12. *)
Definition kwargs (environ : gmap string string) : gmap string pyval :=
  {[ "host" := getenv environ "HOSTNAME";
     "dbname" := getenv environ "DATABASE";
     "sslmode" := PStr "require" ]}.

End Sample.

(** The resource path of a user-assigned identity, as the comment of
    [parse_principal_name] spells it, lines 101-102. *)
Definition resource_path (subId resourceGroup principalName : string) : string :=
  "/subscriptions/" +:+ subId +:+ "/resourcegroups/" +:+ resourceGroup
  +:+ "/providers/Microsoft.ManagedIdentity/userAssignedIdentities/"
  +:+ principalName.

(** A token in the three-part format of the docstring of [decode_jwt]: the
    payload is the claims document in base64url, followed by the padding
    characters the issuer chose to keep. *)
Definition issue_token (header : string) (claims_json : list Z) (pads : Z)
    (signature : string) : string :=
  header +:+ String PyStr.dot
    ((Base64.urlsafe_b64encode_nopad claims_json
      +:+ PyStr.replicate PyStr.equals_sign pads)
     +:+ String PyStr.dot signature).

(** An environment for the sample, and tokens for its runs. *)
Module SampleRun.

Definition environ : gmap string string :=
  {[ "HOSTNAME" := "db.example"; "DATABASE" := "app" ]}.

(** A token for [bob] whose issuer kept the two padding characters. *)
Definition TOKEN_BOB_PADDED : string := issue_token "h" Demo.BOB_CLAIMS 2 "s".

(** A token whose payload has five characters. *)
Definition TOKEN_BAD_PAYLOAD : string := "h.e30Kx.s".

(** A token whose [xms_mirid] claim is the number 7. *)
Definition TOKEN_NUMERIC_PATH : string :=
  issue_token "h" Demo.NUMERIC_PATH_CLAIMS 0 "s".

Definition forwarded (token : string) : gmap string pyval :=
  {[ "user" := PStr "bob"; "password" := PStr token;
     "host" := PStr "db.example"; "dbname" := PStr "app";
     "sslmode" := PStr "require" ]}.

End SampleRun.

(** * Properties *)

(** ** Facts about Python strings *)

Module PyStrFacts.
Import PyStr.

Lemma append_cons a s t : String a s +:+ t = String a (s +:+ t).
Proof. reflexivity. Qed.

Lemma append_nil_l t : EmptyString +:+ t = t.
Proof. reflexivity. Qed.

Lemma append_nil_r s : s +:+ EmptyString = s.
Proof. induction s as [|a s IH]; [done|]. by rewrite append_cons, IH. Qed.

Lemma append_assoc s t u : (s +:+ t) +:+ u = s +:+ (t +:+ u).
Proof.
  induction s as [|a s IH]; [done|]. by rewrite !append_cons, IH.
Qed.

Lemma length_append s t :
  String.length (s +:+ t) = (String.length s + String.length t)%nat.
Proof.
  induction s as [|a s IH]; [done|]. rewrite append_cons. simpl. by rewrite IH.
Qed.

Lemma nonempty_true s : nonempty s = true ↔ s ≠ EmptyString.
Proof. destruct s; simpl; split; congruence. Qed.

Lemma take_cons n a s : take (S n) (String a s) = String a (take n s).
Proof. reflexivity. Qed.

Lemma drop_cons n a s : drop (S n) (String a s) = drop n s.
Proof. reflexivity. Qed.

Lemma take_append s t : take (String.length s) (s +:+ t) = s.
Proof.
  induction s as [|a s IH]; simpl.
  - by destruct t.
  - by rewrite IH.
Qed.

Lemma drop_append s t : drop (String.length s) (s +:+ t) = t.
Proof. induction s as [|a s IH]; simpl; done. Qed.

Lemma take_drop n s : take n s +:+ drop n s = s.
Proof.
  revert s. induction n as [|n IH]; intros [|a s]; simpl; try done.
  by rewrite ?append_cons, IH.
Qed.

Lemma length_drop n s : String.length (drop n s) = (String.length s - n)%nat.
Proof. revert s. induction n as [|n IH]; intros [|a s]; simpl; auto. Qed.

Lemma rfind_range c s : -1 ≤ rfind c s < Z.of_nat (String.length s).
Proof.
  induction s as [|a s IH]; simpl; [lia|].
  destruct (Z.leb_spec 0 (rfind c s)); [lia|].
  destruct (Ascii.eqb a c); lia.
Qed.

Lemma rfind_absent c s : rfind c s = -1 ↔ contains c s = false.
Proof.
  induction s as [|a s IH]; simpl; [done|].
  pose proof (rfind_range c s) as Hr.
  destruct (Z.leb_spec 0 (rfind c s)) as [Hle|Hlt].
  - split; [lia|]. intros [_ H]%orb_false_iff. apply IH in H. lia.
  - assert (rfind c s = -1) as Hm by lia. apply IH in Hm. rewrite Hm.
    destruct (Ascii.eqb a c); simpl; split; (done || lia).
Qed.

(** The index [rfind] returns is that of the last occurrence. *)
Lemma rfind_last c p n :
  contains c n = false → rfind c (p +:+ String c n) = Z.of_nat (String.length p).
Proof.
  intros Hn. induction p as [|a p IH].
  - rewrite append_nil_l. simpl. apply rfind_absent in Hn. rewrite Hn.
    simpl. by rewrite Ascii.eqb_refl.
  - rewrite append_cons. simpl rfind. rewrite IH.
    destruct (Z.leb_spec 0 (Z.of_nat (String.length p))); simpl String.length; lia.
Qed.

Lemma rfind_found c s i :
  rfind c s = i → 0 ≤ i →
  s = take (Z.to_nat i) s +:+ String c (drop (Z.to_nat (i + 1)) s)
  ∧ contains c (drop (Z.to_nat (i + 1)) s) = false.
Proof.
  revert i. induction s as [|a s IH]; intros i Hi Hpos; simpl in Hi; [lia|].
  destruct (Z.leb_spec 0 (rfind c s)) as [Hle|Hlt].
  - destruct (IH (rfind c s) eq_refl Hle) as [Hs Hc].
    subst i.
    replace (Z.to_nat (rfind c s + 1)) with (S (Z.to_nat (rfind c s))) in * by lia.
    replace (Z.to_nat (rfind c s + 1 + 1)) with (S (S (Z.to_nat (rfind c s)))) by lia.
    rewrite take_cons, !drop_cons, append_cons.
    split; [by rewrite <- Hs|done].
  - destruct (Ascii.eqb_spec a c) as [->|]; [|lia].
    subst i. simpl. rewrite append_nil_l. split; [done|].
    apply rfind_absent. pose proof (rfind_range c s). lia.
Qed.

Lemma endswith_true s suffix :
  endswith s suffix = true ↔ ∃ q, s = q +:+ suffix.
Proof.
  unfold endswith. rewrite andb_true_iff, Nat.leb_le, String.eqb_eq. split.
  - intros [_ H]. exists (take (String.length s - String.length suffix) s).
    symmetry. etransitivity; [|apply (take_drop (String.length s - String.length suffix))].
    by rewrite H.
  - intros [q ->]. rewrite length_append. split; [lia|].
    replace (String.length q + String.length suffix - String.length suffix)%nat
      with (String.length q) by lia.
    apply drop_append.
Qed.

Lemma contains_append c s t :
  contains c (s +:+ t) = contains c s || contains c t.
Proof.
  induction s as [|a s IH]; [done|].
  rewrite append_cons. simpl. by rewrite IH, orb_assoc.
Qed.

End PyStrFacts.

(** ** Principal names *)


Lemma parse_principal_name_sound path name :
  parse_principal_name (PStr path) = Ok (PStr name) →
  is_principal_name_of path name.
Proof.
  unfold parse_principal_name. simpl pytruthy.
  destruct (PyStr.nonempty path) eqn:Hne; simpl; [|done].
  destruct (Z.eqb_spec (PyStr.rfind PyStr.slash path) (-1)) as [|Hfound]; [done|].
  pose proof (PyStrFacts.rfind_range PyStr.slash path) as Hrange.
  destruct (PyStrFacts.rfind_found PyStr.slash path _ eq_refl) as [Hsplit Hlast];
    [lia|].
  unfold PyStr.slice_to, PyStr.slice_from.
  set (i := PyStr.rfind PyStr.slash path) in *.
  destruct (PyStr.nonempty (PyStr.drop (Z.to_nat (i + 1)) path)) eqn:Hname;
    simpl; [|done].
  destruct (PyStr.endswith _ _) eqn:Hends; simpl; [|done].
  intros [= <-].
  split; [by apply PyStrFacts.nonempty_true|].
  split.
  { apply not_false_iff_true. intros Habsent%PyStrFacts.rfind_absent.
    subst i. lia. }
  exists (PyStr.take (Z.to_nat i) path).
  split; [done|]. split; [done|].
  split; [by apply PyStrFacts.nonempty_true|].
  by apply PyStrFacts.endswith_true.
Qed.

Lemma parse_principal_name_complete path name :
  is_principal_name_of path name →
  parse_principal_name (PStr path) = Ok (PStr name).
Proof.
  intros (_ & _ & prefix & -> & Hlast & Hname & Hseg).
  unfold parse_principal_name. simpl pytruthy.
  assert (PyStr.nonempty (prefix +:+ String PyStr.slash name) = true) as ->.
  { by destruct prefix. }
  simpl negb. cbv iota.
  rewrite (PyStrFacts.rfind_last _ _ _ Hlast).
  destruct (Z.eqb_spec (Z.of_nat (String.length prefix)) (-1)); [lia|].
  unfold PyStr.slice_to, PyStr.slice_from.
  rewrite Nat2Z.id.
  replace (Z.to_nat (Z.of_nat (String.length prefix) + 1))
    with (String.length (prefix +:+ String PyStr.slash EmptyString)).
  2:{ rewrite PyStrFacts.length_append. simpl. lia. }
  rewrite PyStrFacts.take_append.
  replace (prefix +:+ String PyStr.slash name)
    with ((prefix +:+ String PyStr.slash EmptyString) +:+ name).
  2:{ by rewrite PyStrFacts.append_assoc. }
  rewrite PyStrFacts.drop_append.
  apply PyStrFacts.nonempty_true in Hname. rewrite Hname.
  apply PyStrFacts.endswith_true in Hseg. rewrite Hseg. done.
Qed.

(** On a string [parse_principal_name] does not raise: it returns a string
    or [None]. *)
Lemma parse_principal_name_of_str path :
  (∃ name, parse_principal_name (PStr path) = Ok (PStr name))
  ∨ parse_principal_name (PStr path) = Ok PNone.
Proof.
  unfold parse_principal_name. simpl pytruthy.
  destruct (PyStr.nonempty path); simpl; [|by right].
  destruct (_ =? _); [by right|].
  destruct (_ || _); [by right|]. left. by eexists.
Qed.

(** C5. For a string value of the [xms_mirid] claim, [parse_principal_name]
    returns the text after the last slash exactly when the value is not
    empty and has a slash, that text is not empty, and the text before the
    last slash, compared without regard to case, ends with the
    managed-identity segment; in every other case it returns [None], and
    it never raises. *)
Theorem parse_principal_name_iff (path : string) :
  (∀ name,
      parse_principal_name (PStr path) = Ok (PStr name)
      ↔ is_principal_name_of path name)
  ∧ (parse_principal_name (PStr path) = Ok PNone
     ↔ ¬ ∃ name, is_principal_name_of path name)
  ∧ ((∃ name, parse_principal_name (PStr path) = Ok (PStr name))
     ∨ parse_principal_name (PStr path) = Ok PNone).
Proof.
  assert (∀ name,
             parse_principal_name (PStr path) = Ok (PStr name)
             ↔ is_principal_name_of path name) as Hiff.
  { intros name. split.
    - apply parse_principal_name_sound.
    - apply parse_principal_name_complete. }
  split; [exact Hiff|]. split; [|apply parse_principal_name_of_str]. split.
  - intros Hnone [name Hname]. apply Hiff in Hname. congruence.
  - intros Hno.
    destruct (parse_principal_name_of_str path) as [[name Hp]|Hp]; [|done].
    exfalso. apply Hno. exists name. by apply Hiff.
Qed.

Example parse_principal_name_my_app :
  parse_principal_name
    (PStr "/subscriptions/x/resourcegroups/y/providers/Microsoft.ManagedIdentity/userAssignedIdentities/my-app")
  = Ok (PStr "my-app").
Proof. reflexivity. Qed.

Example parse_principal_name_trailing_slash :
  parse_principal_name
    (PStr "/providers/Microsoft.ManagedIdentity/userAssignedIdentities/")
  = Ok PNone.
Proof. reflexivity. Qed.

Example parse_principal_name_wrong_prefix :
  parse_principal_name (PStr "/subscriptions/x/my-app") = Ok PNone.
Proof. reflexivity. Qed.

Example parse_principal_name_absent : parse_principal_name PNone = Ok PNone.
Proof. reflexivity. Qed.

Example parse_principal_name_number :
  parse_principal_name (PInt 7) = Raise (AttributeError (PInt 7) "rfind").
Proof. reflexivity. Qed.

(** ** Username resolution *)

(** The values the username expression looks at, in the order it does:
    the managed-identity name and the three claims of an object. *)
Definition username_candidates (members : gmap string pyval) (name : pyval)
  : list pyval :=
  [ name;
    dict_get members "upn";
    dict_get members "preferred_username";
    dict_get members "unique_name" ].

Lemma py_or_truthy a b : pytruthy a = true → py_or a b = Ok a.
Proof. unfold py_or. by intros ->. Qed.

Lemma py_or_falsy a b : pytruthy a = false → py_or a b = b.
Proof. unfold py_or. by intros ->. Qed.


(** [parse_principal_name] returns normally on the values its annotation
    admits, a string or an empty value. *)
Lemma parse_principal_name_declared (v : pyval) :
  (pytruthy v = false ∨ ∃ s, v = PStr s) →
  ∃ name, parse_principal_name v = Ok name
          ∧ (name = PNone ∨ ∃ s, name = PStr s).
Proof.
  intros [Hv|[s ->]].
  - exists PNone. unfold parse_principal_name. rewrite Hv. auto.
  - destruct (parse_principal_name_of_str s) as [[name Hp]|Hp]; eauto.
Qed.

(** C6. The username of a claims object is the first non-empty value among
    the managed-identity name of [xms_mirid], [upn], [preferred_username]
    and [unique_name], in that order, whatever the type of the three claim
    values; when none of them is non-empty the expression yields the empty
    value of [unique_name] and does not raise.  The name of [xms_mirid] is
    there for every value its annotation admits, a string or an empty
    value; a non-empty [xms_mirid] that is no string makes the expression
    raise [AttributeError], whatever the other claims hold. *)
Theorem username_of_claims_first_nonempty (members : gmap string pyval) :
  (∀ name,
      parse_principal_name (dict_get members "xms_mirid") = Ok name →
      (∃ (i : nat) v,
          username_candidates members name !! i = Some v
          ∧ pytruthy v = true
          ∧ (∀ (j : nat) w, (j < i)%nat →
                    username_candidates members name !! j = Some w →
                    pytruthy w = false)
          ∧ username_of_claims (PDict members) = Ok v)
      ∨ (Forall (λ v, pytruthy v = false) (username_candidates members name)
         ∧ username_of_claims (PDict members)
           = Ok (dict_get members "unique_name")))
  ∧ ((pytruthy (dict_get members "xms_mirid") = false
      ∨ ∃ s, dict_get members "xms_mirid" = PStr s) →
     ∃ name, parse_principal_name (dict_get members "xms_mirid") = Ok name)
  ∧ (pytruthy (dict_get members "xms_mirid") = true →
     (∀ s, dict_get members "xms_mirid" ≠ PStr s) →
     username_of_claims (PDict members)
     = Raise (AttributeError (dict_get members "xms_mirid") "rfind")).
Proof.
  split; [|split].
  2:{ intros H. destruct (parse_principal_name_declared _ H) as (name & ? & _).
      by exists name. }
  2:{ intros Hv Hno.
      unfold username_of_claims, claims_get, and_then, parse_principal_name.
      rewrite Hv. simpl negb. cbv iota.
      destruct (dict_get members "xms_mirid") eqn:Hx; try done.
      by destruct (Hno s). }
  intros a Hparse.
  unfold username_of_claims, username_candidates, claims_get, and_then.
  rewrite Hparse.
  set (b := dict_get members "upn").
  set (c := dict_get members "preferred_username").
  set (d := dict_get members "unique_name").
  destruct (pytruthy a) eqn:Ha.
  { left. exists 0%nat, a. rewrite (py_or_truthy a) by done.
    repeat split; try done. intros j w Hj. lia. }
  rewrite (py_or_falsy a) by done.
  destruct (pytruthy b) eqn:Hb.
  { left. exists 1%nat, b. rewrite (py_or_truthy b) by done.
    repeat split; try done.
    intros [|j] w Hj; [|lia]. simpl. by intros [= <-]. }
  rewrite (py_or_falsy b) by done.
  destruct (pytruthy c) eqn:Hc.
  { left. exists 2%nat, c. rewrite (py_or_truthy c) by done.
    repeat split; try done.
    intros [|[|j]] w Hj; [| |lia]; simpl; by intros [= <-]. }
  rewrite (py_or_falsy c) by done.
  destruct (pytruthy d) eqn:Hd.
  { left. exists 3%nat, d.
    repeat split; try done.
    intros [|[|[|j]]] w Hj; [| | |lia]; simpl; by intros [= <-]. }
  right. split; [repeat constructor; done|]. done.
Qed.

Lemma username_of_claims_first_nonempty_witness :
  (∃ (i : nat) v,
      username_candidates {[ "upn" := PInt 7; "unique_name" := PStr "last" ]} PNone
        !! i = Some v
      ∧ pytruthy v = true
      ∧ (∀ (j : nat) w, (j < i)%nat →
                username_candidates
                  {[ "upn" := PInt 7; "unique_name" := PStr "last" ]} PNone
                  !! j = Some w →
                pytruthy w = false)
      ∧ username_of_claims
          (PDict {[ "upn" := PInt 7; "unique_name" := PStr "last" ]})
        = Ok v)
  ∨ (Forall (λ v, pytruthy v = false)
       (username_candidates
          {[ "upn" := PInt 7; "unique_name" := PStr "last" ]} PNone)
     ∧ username_of_claims
         (PDict {[ "upn" := PInt 7; "unique_name" := PStr "last" ]})
       = Ok (dict_get
               ({[ "upn" := PInt 7; "unique_name" := PStr "last" ]}
                : gmap string pyval)
               "unique_name")).
Proof.
  exact (proj1 (username_of_claims_first_nonempty
                  {[ "upn" := PInt 7; "unique_name" := PStr "last" ]})
           PNone eq_refl).
Defined.

(** Claims whose [xms_mirid] is the number 7 and whose [upn] is [bob]:
    [upn] is a non-empty value, and yet no username is returned, because
    [parse_principal_name] raises on the number. *)
Lemma username_of_numeric_resource_path :
  dict_get
    ({[ "xms_mirid" := PInt 7; "upn" := PStr "bob" ]} : gmap string pyval)
    "upn"
  = PStr "bob"
  ∧ pytruthy (PStr "bob") = true
  ∧ username_of_claims
      (PDict {[ "xms_mirid" := PInt 7; "upn" := PStr "bob" ]})
    = Raise (AttributeError (PInt 7) "rfind")
  ∧ ∀ v, username_of_claims
           (PDict {[ "xms_mirid" := PInt 7; "upn" := PStr "bob" ]})
         ≠ Ok v.
Proof.
  split; [reflexivity|]. split; [reflexivity|].
  split; [vm_compute; reflexivity|]. intros v. vm_compute. discriminate.
Qed.

Example username_prefers_managed_identity :
  username_of_claims
    (PDict
       {[ "xms_mirid" :=
            PStr "/providers/Microsoft.ManagedIdentity/userAssignedIdentities/my-app";
          "upn" := PStr "user@example.com" ]})
  = Ok (PStr "my-app").
Proof. vm_compute. reflexivity. Qed.

Example username_falls_through_to_upn :
  username_of_claims
    (PDict
       {[ "xms_mirid" := PStr "/subscriptions/x/my-app";
          "upn" := PStr "user@example.com";
          "unique_name" := PStr "other" ]})
  = Ok (PStr "user@example.com").
Proof. vm_compute. reflexivity. Qed.

Example username_skips_empty_upn :
  username_of_claims
    (PDict {[ "upn" := PStr EmptyString; "unique_name" := PStr "last" ]})
  = Ok (PStr "last").
Proof. vm_compute. reflexivity. Qed.

Example username_of_number :
  username_of_claims (PDict {[ "upn" := PInt 7 ]}) = Ok (PInt 7).
Proof. vm_compute. reflexivity. Qed.

Example username_of_list :
  username_of_claims (PList [PStr "upn"])
  = Raise (AttributeError (PList [PStr "upn"]) "get").
Proof. reflexivity. Qed.



(** ** Base64 *)

Module Base64Facts.
Import Base64.

(** Checking a property of small numbers by running it on all of them. *)
Lemma forall_below (P : Z → bool) (n : nat) :
  forallb P (map Z.of_nat (seq 0 n)) = true →
  ∀ v, 0 ≤ v < Z.of_nat n → P v = true.
Proof.
  intros Hall v Hv. rewrite forallb_forall in Hall. apply Hall.
  apply in_map_iff. exists (Z.to_nat v). split; [lia|]. apply in_seq. lia.
Qed.

Lemma forall_below2 (P : Z → Z → bool) (n m : nat) :
  forallb (λ a, forallb (P a) (map Z.of_nat (seq 0 m)))
    (map Z.of_nat (seq 0 n)) = true →
  ∀ a b, 0 ≤ a < Z.of_nat n → 0 ≤ b < Z.of_nat m → P a b = true.
Proof.
  intros Hall a b Ha Hb.
  apply (forall_below (P a) m); [|done].
  by apply (forall_below (λ a, forallb (P a) (map Z.of_nat (seq 0 m))) n).
Qed.

(** *** Characters *)

Lemma in_alphabet_is_data c :
  in_alphabet c = true →
  (N_of_ascii c <? 128)%N = true ∧ ∃ v, is_data (urlsafe_char c) v.
Proof.
  unfold is_data.
  destruct c as [[] [] [] [] [] [] [] []]; vm_compute; intros H;
    try discriminate H; (split; [reflexivity|]); eexists; split; reflexivity.
Qed.

Lemma alphabet_char_is_data v :
  0 ≤ v < 64 →
  is_data (urlsafe_char (alphabet_char v)) v
  ∧ in_alphabet (alphabet_char v) = true.
Proof.
  intros Hv.
  pose proof (forall_below
    (λ v, negb (Ascii.eqb (urlsafe_char (alphabet_char v)) PyStr.equals_sign)
          && bool_decide (table_a2b (urlsafe_char (alphabet_char v)) = Some v)
          && in_alphabet (alphabet_char v)) 64 eq_refl v Hv) as H.
  apply andb_true_iff in H as [[H1 H2]%andb_true_iff H3].
  apply negb_true_iff in H1. apply bool_decide_eq_true in H2.
  by repeat split.
Qed.

Lemma urlsafe_equals : urlsafe_char PyStr.equals_sign = PyStr.equals_sign.
Proof. reflexivity. Qed.

(** *** Strings *)

Lemma translate_append s t : translate (s +:+ t) = translate s +:+ translate t.
Proof. induction s as [|a s IH]; simpl; [done|]. by rewrite IH. Qed.

Lemma replicate_S a n :
  0 ≤ n → PyStr.replicate a (n + 1) = String a (PyStr.replicate a n).
Proof.
  intros Hn. unfold PyStr.replicate.
  replace (Z.to_nat (n + 1)) with (S (Z.to_nat n)) by lia. reflexivity.
Qed.

Lemma length_replicate a n :
  String.length (PyStr.replicate a n) = Z.to_nat n.
Proof.
  unfold PyStr.replicate. induction (Z.to_nat n) as [|k IH]; simpl; [done|].
  by rewrite IH.
Qed.

Lemma translate_padding n :
  translate (PyStr.replicate PyStr.equals_sign n)
  = PyStr.replicate PyStr.equals_sign n.
Proof.
  unfold PyStr.replicate. induction (Z.to_nat n) as [|k IH]; simpl; [done|].
  by rewrite IH.
Qed.

Lemma is_ascii_append s t : is_ascii (s +:+ t) = is_ascii s && is_ascii t.
Proof.
  induction s as [|a s IH]; simpl; [done|]. by rewrite IH, andb_assoc.
Qed.

Lemma is_ascii_padding n : is_ascii (PyStr.replicate PyStr.equals_sign n) = true.
Proof.
  unfold PyStr.replicate. induction (Z.to_nat n) as [|k IH]; simpl; done.
Qed.

Lemma all_in_alphabet_is_ascii s : all_in_alphabet s = true → is_ascii s = true.
Proof.
  induction s as [|a s IH]; simpl; [done|].
  intros [Ha Hs]%andb_true_iff.
  destruct (in_alphabet_is_data a Ha) as [-> _]. simpl. auto.
Qed.

Lemma all_in_alphabet_no_dot s :
  all_in_alphabet s = true → PyStr.contains PyStr.dot s = false.
Proof.
  induction s as [|a s IH]; simpl; [done|].
  intros [Ha Hs]%andb_true_iff. rewrite (IH Hs), orb_false_r.
  destruct (Ascii.eqb_spec a PyStr.dot) as [->|]; [|done].
  vm_compute in Ha. discriminate Ha.
Qed.

(** Induction on strings four characters at a time. *)
Lemma string_ind4 (P : string → Prop) :
  P EmptyString →
  (∀ a, P (String a EmptyString)) →
  (∀ a b, P (String a (String b EmptyString))) →
  (∀ a b c, P (String a (String b (String c EmptyString)))) →
  (∀ a b c d s, P s → P (String a (String b (String c (String d s))))) →
  ∀ s, P s.
Proof.
  intros H0 H1 H2 H3 H4 s.
  assert (P s ∧ (∀ a, P (String a s)) ∧ (∀ a b, P (String a (String b s)))
          ∧ (∀ a b c, P (String a (String b (String c s))))) as [Hs _];
    [|exact Hs].
  induction s as [|x s (IHs & IH1 & IH2 & IH3)]; [by auto|].
  repeat split; auto.
Qed.

(** Induction on lists three elements at a time. *)
Lemma list_ind3 {A} (P : list A → Prop) :
  P [] →
  (∀ a, P [a]) →
  (∀ a b, P [a; b]) →
  (∀ a b c l, P l → P (a :: b :: c :: l)) →
  ∀ l, P l.
Proof.
  intros H0 H1 H2 H3 l.
  assert (P l ∧ (∀ a, P (a :: l)) ∧ (∀ a b, P (a :: b :: l))) as [Hl _];
    [|exact Hl].
  induction l as [|x l (IHl & IH1 & IH2)]; [by auto|].
  repeat split; auto.
Qed.

(** *** The decoding loop *)

Lemma a2b_loop_cons q l p w c s :
  a2b_loop q l p w (String c s) =
  if Ascii.eqb c PyStr.equals_sign then
    if (2 <=? q) && (4 <=? q + (p + 1)) then Ok []
    else a2b_loop q l (if 2 <=? q then p + 1 else p) w s
  else
    match table_a2b c with
    | None => a2b_loop q l p w s
    | Some v =>
        if q =? 0 then a2b_loop 1 v 0 w s
        else if q =? 1 then
          emit (store (Z.lor (Z.shiftl l 2) (Z.shiftr v 4)))
            (a2b_loop 2 (Z.land v 15) 0 (w + 1) s)
        else if q =? 2 then
          emit (store (Z.lor (Z.shiftl l 4) (Z.shiftr v 2)))
            (a2b_loop 3 (Z.land v 3) 0 (w + 1) s)
        else
          emit (store (Z.lor (Z.shiftl l 6) v)) (a2b_loop 0 0 0 (w + 1) s)
    end.
Proof. reflexivity. Qed.

Lemma a2b_loop_data0 l p w c v s :
  is_data c v → a2b_loop 0 l p w (String c s) = a2b_loop 1 v 0 w s.
Proof. intros [H1 H2]. by rewrite a2b_loop_cons, H1, H2. Qed.

Lemma a2b_loop_data1 l p w c v s :
  is_data c v →
  a2b_loop 1 l p w (String c s)
  = emit (byte0 l v) (a2b_loop 2 (Z.land v 15) 0 (w + 1) s).
Proof. intros [H1 H2]. by rewrite a2b_loop_cons, H1, H2. Qed.

Lemma a2b_loop_data2 l p w c v s :
  is_data c v →
  a2b_loop 2 l p w (String c s)
  = emit (store (Z.lor (Z.shiftl l 4) (Z.shiftr v 2)))
      (a2b_loop 3 (Z.land v 3) 0 (w + 1) s).
Proof. intros [H1 H2]. by rewrite a2b_loop_cons, H1, H2. Qed.

Lemma a2b_loop_data3 l p w c v s :
  is_data c v →
  a2b_loop 3 l p w (String c s)
  = emit (store (Z.lor (Z.shiftl l 6) v)) (a2b_loop 0 0 0 (w + 1) s).
Proof. intros [H1 H2]. by rewrite a2b_loop_cons, H1, H2. Qed.

(** Two data characters write the first byte of a group. *)
Lemma a2b_loop_pair l w c0 c1 v0 v1 s :
  is_data c0 v0 → is_data c1 v1 →
  a2b_loop 0 l 0 w (String c0 (String c1 s))
  = emit (byte0 v0 v1) (a2b_loop 2 (Z.land v1 15) 0 (w + 1) s).
Proof.
  intros H0 H1.
  by rewrite (a2b_loop_data0 _ _ _ _ _ _ H0), (a2b_loop_data1 _ _ _ _ _ _ H1).
Qed.

Lemma a2b_loop_triple l w c0 c1 c2 v0 v1 v2 s :
  is_data c0 v0 → is_data c1 v1 → is_data c2 v2 →
  a2b_loop 0 l 0 w (String c0 (String c1 (String c2 s)))
  = emit (byte0 v0 v1)
      (emit (byte1 v1 v2) (a2b_loop 3 (Z.land v2 3) 0 (w + 1 + 1) s)).
Proof.
  intros H0 H1 H2.
  by rewrite (a2b_loop_pair _ _ _ _ _ _ _ H0 H1), (a2b_loop_data2 _ _ _ _ _ _ H2).
Qed.

(** Four data characters write three bytes and start a new group. *)
Lemma a2b_loop_quad l w c0 c1 c2 c3 v0 v1 v2 v3 s :
  is_data c0 v0 → is_data c1 v1 → is_data c2 v2 → is_data c3 v3 →
  a2b_loop 0 l 0 w (String c0 (String c1 (String c2 (String c3 s))))
  = emit (byte0 v0 v1) (emit (byte1 v1 v2) (emit (byte2 v2 v3)
      (a2b_loop 0 0 0 (w + 1 + 1 + 1) s))).
Proof.
  intros H0 H1 H2 H3.
  by rewrite (a2b_loop_triple _ _ _ _ _ _ _ _ _ H0 H1 H2),
    (a2b_loop_data3 _ _ _ _ _ _ H3).
Qed.

(** At the start of a group neither the pending bits nor the count of pads
    matter. *)
Lemma a2b_loop_fresh l p w s : a2b_loop 0 l p w s = a2b_loop 0 0 0 w s.
Proof.
  revert l p. induction s as [|c s IH]; intros l p; [done|].
  rewrite !a2b_loop_cons.
  destruct (Ascii.eqb c PyStr.equals_sign).
  - simpl. rewrite (IH l p). apply eq_sym, IH.
  - destruct (table_a2b c); [done|]. rewrite (IH l p). apply eq_sym, IH.
Qed.

(** Padding at the start of a group is skipped. *)
Lemma a2b_loop_skip_padding w n s :
  a2b_loop 0 0 0 w (PyStr.replicate PyStr.equals_sign n +:+ s)
  = a2b_loop 0 0 0 w s.
Proof.
  unfold PyStr.replicate. induction (Z.to_nat n) as [|k IH]; [done|].
  simpl Nat.iter. rewrite PyStrFacts.append_cons, a2b_loop_cons. simpl. exact IH.
Qed.

(** *** Padding *)

Lemma a2b_loop_only_padding l p w n :
  a2b_loop 0 l p w (PyStr.replicate PyStr.equals_sign n) = Ok [].
Proof.
  rewrite a2b_loop_fresh.
  rewrite <- (PyStrFacts.append_nil_r (PyStr.replicate _ _)).
  by rewrite a2b_loop_skip_padding.
Qed.

(** One data character and then only padding: no byte can be written, and
    the message counts the data characters of the [w] bytes before. *)
Lemma a2b_loop_dangling l p w n :
  a2b_loop 1 l p w (PyStr.replicate PyStr.equals_sign n)
  = Raise (BinasciiError (invalid_length (w / 3 * 4 + 1))).
Proof.
  unfold PyStr.replicate. induction (Z.to_nat n) as [|k IH]; [done|].
  simpl Nat.iter. rewrite a2b_loop_cons. simpl. exact IH.
Qed.

Lemma a2b_loop_two_pads l w :
  a2b_loop 2 l 0 w (PyStr.replicate PyStr.equals_sign 2) = Ok [].
Proof. reflexivity. Qed.

Lemma a2b_loop_one_pad l w :
  a2b_loop 3 l 0 w (PyStr.replicate PyStr.equals_sign 1) = Ok [].
Proof. reflexivity. Qed.

Lemma length_mod4_quad a b c d s :
  Z.of_nat (String.length (String a (String b (String c (String d s))))) mod 4
  = Z.of_nat (String.length s) mod 4.
Proof.
  simpl String.length.
  replace (Z.of_nat (S (S (S (S (String.length s))))))
    with (Z.of_nat (String.length s) + 1 * 4) by lia.
  apply Z_mod_plus_full.
Qed.

Lemma jwt_padding_quad a b c d s :
  jwt_padding (String a (String b (String c (String d s)))) = jwt_padding s.
Proof. unfold jwt_padding. by rewrite length_mod4_quad. Qed.

Lemma canonical_padding_quad a b c d s :
  canonical_padding (String a (String b (String c (String d s))))
  = canonical_padding s.
Proof. unfold canonical_padding. by rewrite length_mod4_quad. Qed.

Lemma emit_Ok b bs : emit b (Ok bs) = Ok (b :: bs).
Proof. reflexivity. Qed.

Lemma emit_Raise b e : emit b (Raise e) = Raise e.
Proof. reflexivity. Qed.

(** *** Payloads over the alphabet *)

Ltac data_of Ha v Hv :=
  let Hascii := fresh in
  destruct (in_alphabet_is_data _ Ha) as (Hascii & v & Hv); clear Hascii.

(** With the padding of [decode_jwt], and [w] bytes written before, a
    payload of [n] data characters decodes to [3n/4] bytes, unless [n] is
    one more than a multiple of four; then the error counts the data
    characters read. *)
Lemma a2b_padded_payload_from p w :
  all_in_alphabet p = true →
  (Z.of_nat (String.length p) mod 4 = 1 →
   a2b_loop 0 0 0 w (translate p +:+ jwt_padding p)
   = Raise (BinasciiError
              (invalid_length
                 ((w + 3 * (Z.of_nat (String.length p) / 4)) / 3 * 4 + 1))))
  ∧ (Z.of_nat (String.length p) mod 4 ≠ 1 →
     ∃ bs, a2b_loop 0 0 0 w (translate p +:+ jwt_padding p) = Ok bs
           ∧ Z.of_nat (length bs) = 3 * Z.of_nat (String.length p) / 4).
Proof.
  revert w.
  induction p as [|a|a b|a b c|a b c d s IH] using string_ind4;
    intros w; simpl all_in_alphabet.
  - intros _. split; [done|]. intros _. exists []. split; [|done].
    apply a2b_loop_only_padding.
  - rewrite andb_true_r. intros Ha. data_of Ha va Hva.
    split; [|done]. intros _. simpl translate.
    rewrite PyStrFacts.append_cons, (a2b_loop_data0 _ _ _ _ _ _ Hva).
    change (jwt_padding _) with (PyStr.replicate PyStr.equals_sign 3).
    rewrite PyStrFacts.append_nil_l, a2b_loop_dangling.
    change (Z.of_nat (String.length (String a EmptyString)) / 4) with 0.
    by rewrite Z.mul_0_r, Z.add_0_r.
  - rewrite andb_true_r. intros [Ha Hb]%andb_true_iff.
    data_of Ha va Hva. data_of Hb vb Hvb.
    split; [done|]. intros _. exists [byte0 va vb]. split; [|done].
    simpl translate. rewrite !PyStrFacts.append_cons.
    rewrite (a2b_loop_pair _ _ _ _ _ _ _ Hva Hvb).
    change (jwt_padding _) with (PyStr.replicate PyStr.equals_sign 2).
    by rewrite PyStrFacts.append_nil_l, a2b_loop_two_pads.
  - rewrite andb_true_r. intros [Ha [Hb Hc]%andb_true_iff]%andb_true_iff.
    data_of Ha va Hva. data_of Hb vb Hvb. data_of Hc vc Hvc.
    split; [done|]. intros _. exists [byte0 va vb; byte1 vb vc]. split; [|done].
    simpl translate. rewrite !PyStrFacts.append_cons.
    rewrite (a2b_loop_triple _ _ _ _ _ _ _ _ _ Hva Hvb Hvc).
    change (jwt_padding _) with (PyStr.replicate PyStr.equals_sign 1).
    by rewrite PyStrFacts.append_nil_l, a2b_loop_one_pad.
  - intros [Ha [Hb [Hc [Hd Hs]%andb_true_iff]%andb_true_iff]%andb_true_iff]%andb_true_iff.
    data_of Ha va Hva. data_of Hb vb Hvb. data_of Hc vc Hvc. data_of Hd vd Hvd.
    destruct (IH (w + 1 + 1 + 1) Hs) as [IHbad IHgood].
    rewrite length_mod4_quad, jwt_padding_quad.
    simpl translate. rewrite !PyStrFacts.append_cons.
    rewrite (a2b_loop_quad _ _ _ _ _ _ _ _ _ _ _ Hva Hvb Hvc Hvd).
    split.
    + intros Hmod. rewrite (IHbad Hmod). cbn [emit].
      replace ((w + 1 + 1 + 1 + 3 * (Z.of_nat (String.length s) / 4)) / 3)
        with ((w + 3 * (Z.of_nat
                          (String.length
                             (String a (String b (String c (String d s)))))
                        / 4)) / 3); [done|].
      cbn [String.length]. rewrite !Nat2Z.inj_succ.
      Z.div_mod_to_equations. lia.
    + intros Hmod. destruct (IHgood Hmod) as (bs & -> & Hlen).
      exists (byte0 va vb :: byte1 vb vc :: byte2 vc vd :: bs).
      split; [done|]. cbn [length String.length].
      rewrite !Nat2Z.inj_succ. Z.div_mod_to_equations. lia.
Qed.

(** From the start: the count in the message is the length of the
    payload. *)
Lemma a2b_padded_payload p :
  all_in_alphabet p = true →
  (Z.of_nat (String.length p) mod 4 = 1 →
   a2b_loop 0 0 0 0 (translate p +:+ jwt_padding p)
   = Raise (BinasciiError (invalid_length (Z.of_nat (String.length p)))))
  ∧ (Z.of_nat (String.length p) mod 4 ≠ 1 →
     ∃ bs, a2b_loop 0 0 0 0 (translate p +:+ jwt_padding p) = Ok bs
           ∧ Z.of_nat (length bs) = 3 * Z.of_nat (String.length p) / 4).
Proof.
  intros Hp. destruct (a2b_padded_payload_from p 0 Hp) as [Hbad Hgood].
  split; [|exact Hgood].
  intros Hmod. rewrite (Hbad Hmod).
  replace ((0 + 3 * (Z.of_nat (String.length p) / 4)) / 3 * 4 + 1)
    with (Z.of_nat (String.length p)); [done|].
  Z.div_mod_to_equations. lia.
Qed.

(** Whole groups in front do not care what follows them. *)
Lemma a2b_groups_then p t t' w :
  all_in_alphabet p = true →
  Z.of_nat (String.length p) mod 4 = 0 →
  (∀ w', a2b_loop 0 0 0 w' t = a2b_loop 0 0 0 w' t') →
  a2b_loop 0 0 0 w (translate p +:+ t) = a2b_loop 0 0 0 w (translate p +:+ t').
Proof.
  intros Hp Hmod Ht. revert w Hp Hmod.
  induction p as [|a|a b|a b c|a b c d s IH] using string_ind4;
    intros w; try done; simpl all_in_alphabet.
  intros [Ha [Hb [Hc [Hd Hs]%andb_true_iff]%andb_true_iff]%andb_true_iff]%andb_true_iff.
  data_of Ha va Hva. data_of Hb vb Hvb. data_of Hc vc Hvc. data_of Hd vd Hvd.
  rewrite length_mod4_quad. intros Hmod.
  simpl translate. rewrite !PyStrFacts.append_cons.
  rewrite !(a2b_loop_quad _ _ _ _ _ _ _ _ _ _ _ Hva Hvb Hvc Hvd).
  by rewrite (IH _ Hs Hmod).
Qed.

(** The padding of [decode_jwt] decodes like the canonical one. *)
Lemma a2b_padding_harmless p :
  all_in_alphabet p = true →
  a2b_loop 0 0 0 0 (translate p +:+ jwt_padding p)
  = a2b_loop 0 0 0 0 (translate p +:+ canonical_padding p).
Proof.
  intros Hp. unfold jwt_padding, canonical_padding.
  destruct (decide (Z.of_nat (String.length p) mod 4 = 0)) as [Hmod|Hmod].
  - apply a2b_groups_then; [done..|]. by rewrite Hmod.
  - rewrite (Z.mod_small (4 - _) 4); [done|].
    pose proof (Z.mod_pos_bound (Z.of_nat (String.length p)) 4). lia.
Qed.

Lemma urlsafe_b64decode_padded p n :
  all_in_alphabet p = true →
  urlsafe_b64decode (p +:+ PyStr.replicate PyStr.equals_sign n)
  = a2b_loop 0 0 0 0 (translate p +:+ PyStr.replicate PyStr.equals_sign n).
Proof.
  intros Hp. unfold urlsafe_b64decode, a2b_base64.
  by rewrite is_ascii_append, (all_in_alphabet_is_ascii _ Hp), is_ascii_padding,
    translate_append, translate_padding.
Qed.

(** *** Bytes and six-bit values *)

Ltac split_checks H :=
  repeat (let H' := fresh in apply andb_true_iff in H as [H H']);
  rewrite ?Z.eqb_eq, ?Z.ltb_lt, ?Z.leb_le in *.

(** The first two characters of a group carry the first byte. *)
Lemma first_byte a b :
  is_byte a → is_byte b →
  let s0 := Z.shiftr a 2 in
  let s1 := Z.lor (Z.shiftl (Z.land a 3) 4) (Z.shiftr b 4) in
  let s1' := Z.shiftl (Z.land a 3) 4 in
  (0 ≤ s0 < 64 ∧ 0 ≤ s1 < 64 ∧ 0 ≤ s1' < 64)
  ∧ byte0 s0 s1 = a ∧ byte0 s0 s1' = a
  ∧ Z.land s1 15 = Z.shiftr b 4.
Proof.
  intros Ha Hb.
  pose proof (forall_below2
    (λ a b,
       let s0 := Z.shiftr a 2 in
       let s1 := Z.lor (Z.shiftl (Z.land a 3) 4) (Z.shiftr b 4) in
       let s1' := Z.shiftl (Z.land a 3) 4 in
       (0 <=? s0) && (s0 <? 64) && (0 <=? s1) && (s1 <? 64)
       && (0 <=? s1') && (s1' <? 64)
       && (byte0 s0 s1 =? a) && (byte0 s0 s1' =? a)
       && (Z.land s1 15 =? Z.shiftr b 4)) 256 256) as H.
  lapply H; [clear H; intros H|vm_compute; reflexivity].
  specialize (H a b Ha Hb). cbv zeta in H. split_checks H. cbv zeta. lia.
Qed.

(** The second and third characters carry the second byte. *)
Lemma second_byte b c :
  is_byte b → is_byte c →
  let s2 := Z.lor (Z.shiftl (Z.land b 15) 2) (Z.shiftr c 6) in
  let s2' := Z.shiftl (Z.land b 15) 2 in
  (0 ≤ s2 < 64 ∧ 0 ≤ s2' < 64)
  ∧ store (Z.lor (Z.shiftl (Z.shiftr b 4) 4) (Z.shiftr s2 2)) = b
  ∧ store (Z.lor (Z.shiftl (Z.shiftr b 4) 4) (Z.shiftr s2' 2)) = b
  ∧ Z.land s2 3 = Z.shiftr c 6.
Proof.
  intros Hb Hc.
  pose proof (forall_below2
    (λ b c,
       let s2 := Z.lor (Z.shiftl (Z.land b 15) 2) (Z.shiftr c 6) in
       let s2' := Z.shiftl (Z.land b 15) 2 in
       (0 <=? s2) && (s2 <? 64) && (0 <=? s2') && (s2' <? 64)
       && (store (Z.lor (Z.shiftl (Z.shiftr b 4) 4) (Z.shiftr s2 2)) =? b)
       && (store (Z.lor (Z.shiftl (Z.shiftr b 4) 4) (Z.shiftr s2' 2)) =? b)
       && (Z.land s2 3 =? Z.shiftr c 6)) 256 256) as H.
  lapply H; [clear H; intros H|vm_compute; reflexivity].
  specialize (H b c Hb Hc). cbv zeta in H. split_checks H. cbv zeta. lia.
Qed.

(** The last character of a group completes the third byte. *)
Lemma third_byte c :
  is_byte c →
  0 ≤ Z.land c 63 < 64
  ∧ store (Z.lor (Z.shiftl (Z.shiftr c 6) 6) (Z.land c 63)) = c.
Proof.
  intros Hc.
  pose proof (forall_below
    (λ c, (0 <=? Z.land c 63) && (Z.land c 63 <? 64)
          && (store (Z.lor (Z.shiftl (Z.shiftr c 6) 6) (Z.land c 63)) =? c))
    256) as H.
  lapply H; [clear H; intros H|vm_compute; reflexivity].
  specialize (H c Hc). split_checks H. lia.
Qed.

(** *** Decoding what was encoded *)

Lemma encode_three a b c rest :
  urlsafe_b64encode_nopad (a :: b :: c :: rest)
  = String (alphabet_char (Z.shiftr a 2))
      (String (alphabet_char (Z.lor (Z.shiftl (Z.land a 3) 4) (Z.shiftr b 4)))
         (String (alphabet_char (Z.lor (Z.shiftl (Z.land b 15) 2) (Z.shiftr c 6)))
            (String (alphabet_char (Z.land c 63))
               (urlsafe_b64encode_nopad rest)))).
Proof. reflexivity. Qed.

(** The encoder writes characters of the alphabet, and never a number of
    them that is one more than a multiple of four. *)
Lemma encode_in_alphabet bs :
  Forall is_byte bs →
  all_in_alphabet (urlsafe_b64encode_nopad bs) = true
  ∧ Z.of_nat (String.length (urlsafe_b64encode_nopad bs)) mod 4 ≠ 1.
Proof.
  induction bs as [|a|a b|a b c rest IH] using list_ind3.
  - done.
  - intros [Ha _]%Forall_cons.
    destruct (first_byte a 0 Ha) as ((H0 & _ & H1) & _); [done|].
    split; [|done]. simpl.
    by rewrite (proj2 (alphabet_char_is_data _ H0)),
      (proj2 (alphabet_char_is_data _ H1)).
  - intros [Ha [Hb _]%Forall_cons]%Forall_cons.
    destruct (first_byte a b Ha Hb) as ((H0 & H1 & _) & _).
    destruct (second_byte b 0 Hb) as ((_ & H2) & _); [done|].
    split; [|done]. simpl.
    by rewrite (proj2 (alphabet_char_is_data _ H0)),
      (proj2 (alphabet_char_is_data _ H1)), (proj2 (alphabet_char_is_data _ H2)).
  - intros [Ha [Hb [Hc Hrest]%Forall_cons]%Forall_cons]%Forall_cons.
    destruct (first_byte a b Ha Hb) as ((H0 & H1 & _) & _).
    destruct (second_byte b c Hb Hc) as ((H2 & _) & _).
    destruct (third_byte c Hc) as (H3 & _).
    destruct (IH Hrest) as [IHa IHl].
    rewrite encode_three, length_mod4_quad. split; [|done].
    cbn [all_in_alphabet].
    by rewrite (proj2 (alphabet_char_is_data _ H0)),
      (proj2 (alphabet_char_is_data _ H1)), (proj2 (alphabet_char_is_data _ H2)),
      (proj2 (alphabet_char_is_data _ H3)), IHa.
Qed.

(** Round trip: the bytes a token issuer encoded come back. *)
Lemma a2b_encoded bs w :
  Forall is_byte bs →
  a2b_loop 0 0 0 w
    (translate (urlsafe_b64encode_nopad bs)
     +:+ jwt_padding (urlsafe_b64encode_nopad bs))
  = Ok bs.
Proof.
  revert w.
  induction bs as [|a|a b|a b c rest IH] using list_ind3; intros w.
  - intros _. apply a2b_loop_only_padding.
  - intros [Ha _]%Forall_cons.
    destruct (first_byte a 0 Ha) as ((H0 & _ & H1) & _ & Hbyte & _); [done|].
    simpl urlsafe_b64encode_nopad. simpl translate.
    rewrite !PyStrFacts.append_cons.
    rewrite (a2b_loop_pair _ _ _ _ _ _ _
               (proj1 (alphabet_char_is_data _ H0))
               (proj1 (alphabet_char_is_data _ H1))).
    change (jwt_padding _) with (PyStr.replicate PyStr.equals_sign 2).
    by rewrite PyStrFacts.append_nil_l, a2b_loop_two_pads, Hbyte.
  - intros [Ha [Hb _]%Forall_cons]%Forall_cons.
    destruct (first_byte a b Ha Hb) as ((H0 & H1 & _) & Hbyte0 & _ & Hleft).
    destruct (second_byte b 0 Hb) as ((_ & H2) & _ & Hbyte1 & _); [done|].
    simpl urlsafe_b64encode_nopad. simpl translate.
    rewrite !PyStrFacts.append_cons.
    rewrite (a2b_loop_triple _ _ _ _ _ _ _ _ _
               (proj1 (alphabet_char_is_data _ H0))
               (proj1 (alphabet_char_is_data _ H1))
               (proj1 (alphabet_char_is_data _ H2))).
    change (jwt_padding _) with (PyStr.replicate PyStr.equals_sign 1).
    rewrite PyStrFacts.append_nil_l, a2b_loop_one_pad, Hbyte0.
    unfold byte1. by rewrite Hleft, Hbyte1.
  - intros [Ha [Hb [Hc Hrest]%Forall_cons]%Forall_cons]%Forall_cons.
    destruct (first_byte a b Ha Hb) as ((H0 & H1 & _) & Hbyte0 & _ & Hleft1).
    destruct (second_byte b c Hb Hc) as ((H2 & _) & Hbyte1 & _ & Hleft2).
    destruct (third_byte c Hc) as (H3 & Hbyte2).
    rewrite encode_three, jwt_padding_quad.
    simpl translate. rewrite !PyStrFacts.append_cons.
    rewrite (a2b_loop_quad _ _ _ _ _ _ _ _ _ _ _
               (proj1 (alphabet_char_is_data _ H0))
               (proj1 (alphabet_char_is_data _ H1))
               (proj1 (alphabet_char_is_data _ H2))
               (proj1 (alphabet_char_is_data _ H3))).
    rewrite (IH _ Hrest), Hbyte0. unfold byte1, byte2.
    by rewrite Hleft1, Hbyte1, Hleft2, Hbyte2.
Qed.

End Base64Facts.

(** ** Decoding tokens *)

Lemma split_no_separator c s :
  PyStr.contains c s = false → PyStr.split c s = [s].
Proof.
  induction s as [|a s IH]; simpl; [done|].
  intros [Ha Hs]%orb_false_iff. by rewrite Ha, (IH Hs).
Qed.

Lemma split_first_segment c h t :
  PyStr.contains c h = false →
  PyStr.split c (h +:+ String c t) = h :: PyStr.split c t.
Proof.
  induction h as [|a h IH]; simpl.
  - intros _. by rewrite Ascii.eqb_refl.
  - intros [Ha Hh]%orb_false_iff. by rewrite Ha, (IH Hh).
Qed.

(** The payload is the second of the segments between dots. *)
Lemma split_payload header payload signature :
  PyStr.contains PyStr.dot header = false →
  PyStr.contains PyStr.dot payload = false →
  PyStr.split PyStr.dot
    (header +:+ String PyStr.dot (payload +:+ String PyStr.dot signature))
  !! 1%nat = Some payload.
Proof.
  intros Hh Hp. by rewrite (split_first_segment _ _ _ Hh), (split_first_segment _ _ _ Hp).
Qed.

Lemma length_jwt_padding payload :
  Z.of_nat (String.length (jwt_padding payload))
  = 4 - Z.of_nat (String.length payload) mod 4.
Proof.
  unfold jwt_padding. rewrite Base64Facts.length_replicate.
  pose proof (Z.mod_pos_bound (Z.of_nat (String.length payload)) 4). lia.
Qed.

(** C3. [decode_jwt] appends [4 - len(payload) % 4] padding characters to
    the second segment of every token and decodes the result: the
    [(4 - len(payload) % 4) % 4] of the canonical padding when the length
    is no multiple of four, and four, where the canonical padding is empty,
    when it is.  For a payload
    over the alphabet the decoder skips the four, so both paddings decode
    alike: the payload decodes to [3 * len / 4] bytes, the bytes that were
    encoded when it is an encoding, unless its length is one more than a
    multiple of four, and then [decode_jwt] raises the decoder's error,
    which counts the characters of the payload. *)
Theorem decode_jwt_padding
    (json_loads : list Z → result pyval) (payload : string) :
  let n := Z.of_nat (String.length payload) in
  (Z.of_nat (String.length (jwt_padding payload)) = 4 - n mod 4
   ∧ (n mod 4 ≠ 0 → jwt_padding payload = canonical_padding payload)
   ∧ (n mod 4 = 0 →
      String.length (jwt_padding payload) = 4%nat
      ∧ canonical_padding payload = EmptyString))
  ∧ (∀ token,
       PyStr.split PyStr.dot token !! 1%nat = Some payload →
       decode_jwt json_loads token
       = and_then
           (Base64.urlsafe_b64decode
              (payload +:+ PyStr.replicate PyStr.equals_sign (4 - n mod 4)))
           json_loads)
  ∧ (Base64.all_in_alphabet payload = true →
     ∀ header signature,
       PyStr.contains PyStr.dot header = false →
       let token :=
         header +:+ String PyStr.dot (payload +:+ String PyStr.dot signature) in
       Base64.urlsafe_b64decode (payload +:+ jwt_padding payload)
       = Base64.urlsafe_b64decode (payload +:+ canonical_padding payload)
       ∧ (n mod 4 = 1 →
          decode_jwt json_loads token
          = Raise (BinasciiError (Base64.invalid_length n)))
       ∧ (n mod 4 ≠ 1 →
          ∃ bs, Z.of_nat (length bs) = 3 * n / 4
                ∧ Base64.urlsafe_b64decode (payload +:+ jwt_padding payload)
                  = Ok bs
                ∧ decode_jwt json_loads token = json_loads bs)
       ∧ (∀ bs, Forall is_byte bs →
                payload = Base64.urlsafe_b64encode_nopad bs →
                decode_jwt json_loads token = json_loads bs)).
Proof.
  intros n.
  pose proof (Z.mod_pos_bound n 4) as Hbound.
  assert (∀ header rest,
             PyStr.contains PyStr.dot payload = false →
             PyStr.contains PyStr.dot header = false →
             decode_jwt json_loads
               (header +:+ String PyStr.dot (payload +:+ String PyStr.dot rest))
             = and_then
                 (Base64.urlsafe_b64decode (payload +:+ jwt_padding payload))
                 json_loads) as Hdecode.
  { intros header rest Hpayload Hheader. unfold decode_jwt.
    by rewrite (split_payload _ _ _ Hheader Hpayload). }
  split; [|split].
  - split; [apply length_jwt_padding|]. split.
    + intros Hmod. unfold jwt_padding, canonical_padding. fold n.
      rewrite (Z.mod_small (4 - _) 4); [done|lia].
    + intros Hmod. split.
      * apply Nat2Z.inj. rewrite length_jwt_padding. fold n. lia.
      * unfold canonical_padding. fold n. by rewrite Hmod.
  - intros token Hsplit. unfold decode_jwt. by rewrite Hsplit.
  - intros Halpha header signature Hheader token.
    pose proof (Base64Facts.all_in_alphabet_no_dot _ Halpha) as Hpayload.
    assert (Base64.urlsafe_b64decode (payload +:+ jwt_padding payload)
            = Base64.a2b_loop 0 0 0 0
                (Base64.translate payload +:+ jwt_padding payload)) as Hloop.
    { by apply Base64Facts.urlsafe_b64decode_padded. }
    destruct (Base64Facts.a2b_padded_payload _ Halpha) as [Hbad Hgood].
    fold n in Hbad, Hgood. unfold token.
    rewrite (Hdecode header signature Hpayload Hheader), Hloop.
    split; [|split; [|split]].
    + unfold canonical_padding.
      rewrite Base64Facts.urlsafe_b64decode_padded by done.
      by apply Base64Facts.a2b_padding_harmless.
    + intros Hmod. by rewrite (Hbad Hmod).
    + intros Hmod. destruct (Hgood Hmod) as (bs & Hbs & Hlen).
      exists bs. by rewrite Hbs.
    + intros bs Hbytes Hbs. rewrite Hbs.
      by rewrite Base64Facts.a2b_encoded.
Qed.

Lemma decode_jwt_padding_witness :
  decode_jwt Demo.json_loads Demo.TOKEN_BOB
  = Ok (PDict {[ "upn" := PStr "bob" ]})
  ∧ decode_jwt Demo.json_loads "h.e30!.s"
    = and_then (Base64.urlsafe_b64decode "e30!====") Demo.json_loads.
Proof.
  split.
  - pose proof (decode_jwt_padding Demo.json_loads "eyJ1cG4iOiJib2IifQ")
      as (_ & _ & Hdecode).
    destruct (Hdecode eq_refl "h" "s" eq_refl) as (_ & _ & _ & Hround).
    apply (Hround Demo.BOB_CLAIMS); [|reflexivity].
    unfold is_byte. repeat constructor; done.
  - pose proof (decode_jwt_padding Demo.json_loads "e30!") as (_ & Hany & _).
    exact (Hany "h.e30!.s" eq_refl).
Defined.

(** A payload of four characters: [decode_jwt] pads it with four more, where
    [(4 - len % 4) % 4] is zero; and the four show when the payload holds a
    character outside the alphabet, which the decoder skips: with them the
    three data characters decode, without them they are an incomplete
    group. *)
Lemma jwt_padding_of_whole_group :
  jwt_padding "e30K" = "===="
  ∧ canonical_padding "e30K" = EmptyString
  ∧ String.length (jwt_padding "e30K")
    ≠ Z.to_nat ((4 - Z.of_nat (String.length "e30K") mod 4) mod 4)
  ∧ decode_jwt Demo.json_loads "h.e30!.s" = Ok (PDict ∅)
  ∧ Base64.urlsafe_b64decode ("e30!" +:+ canonical_padding "e30!")
    = Raise (BinasciiError Base64.INCORRECT_PADDING).
Proof.
  split; [reflexivity|]. split; [reflexivity|].
  split; [vm_compute; discriminate|]. split; vm_compute; reflexivity.
Qed.

Example decode_jwt_payload_mod4_0 :
  Base64.urlsafe_b64decode ("e30K" +:+ jwt_padding "e30K") = Ok [123; 125; 10].
Proof. reflexivity. Qed.

Example decode_jwt_payload_mod4_1 :
  decode_jwt Demo.json_loads "h.e30Kx.s"
  = Raise
      (BinasciiError
         "Invalid base64-encoded string: number of data characters (5) cannot be 1 more than a multiple of 4").
Proof. reflexivity. Qed.

Example decode_jwt_payload_mod4_2 :
  decode_jwt Demo.json_loads Demo.TOKEN_BOB
  = Ok (PDict {[ "upn" := PStr "bob" ]}).
Proof. vm_compute. reflexivity. Qed.

Example decode_jwt_payload_mod4_3 :
  decode_jwt Demo.json_loads Demo.TOKEN_NO_CLAIMS = Ok (PDict ∅).
Proof. vm_compute. reflexivity. Qed.

Example decode_jwt_no_payload :
  decode_jwt Demo.json_loads "nodots" = Raise IndexError.
Proof. reflexivity. Qed.

(** ** The deriver and the bootstrap adapter *)

Section ProgramFacts.

Variable json_loads : list Z → result pyval.
Variable Env : Type.
Variable Conn : Type.
Variable get_token : credential → string → Env → result string * Env.
Variable base_connect :
  list pyval → gmap string pyval → Env → result Conn * Env.

Abbreviation decode := (decode_jwt json_loads).
Abbreviation derive := (get_entra_conninfo json_loads Env get_token).
Abbreviation connect_ :=
  (connect json_loads Env Conn get_token base_connect).

Lemma acquire_eq c scope (w : World Env) :
  acquire Env get_token c scope w
  = (fst (get_token (effective c) scope (env w)),
     after w (snd (get_token (effective c) scope (env w)))
       [EvGetToken (effective c) scope]).
Proof.
  unfold acquire, get_entra_token_async, get_entra_token, call_get_token,
    effective, after.
  destruct c as [[]|]; simpl; by destruct (get_token _ _ _).
Qed.

Lemma after_after (w : World Env) e1 evs1 e2 evs2 :
  after (after w e1 evs1) e2 evs2 = after w e2 (evs1 ++ evs2).
Proof. unfold after. simpl. by rewrite <- app_assoc. Qed.

Abbreviation primary c := (EvGetToken (effective c) AZURE_DB_FOR_POSTGRES_SCOPE).
Abbreviation fallback c := (EvGetToken (effective c) AZURE_MANAGEMENT_SCOPE).

(** One run of the deriver, by the answers it gets. *)
Lemma derive_unfold c (w : World Env) :
  derive c w =
  match get_token (effective c) AZURE_DB_FOR_POSTGRES_SCOPE (env w) with
  | (Raise e, e1) => (Raise e, after w e1 [primary c])
  | (Ok tok1, e1) =>
      match and_then (decode tok1) username_of_claims with
      | Raise e => (Raise e, after w e1 [primary c])
      | Ok u1 =>
          if pytruthy u1
          then (Ok (conninfo u1 tok1), after w e1 [primary c])
          else
            match get_token (effective c) AZURE_MANAGEMENT_SCOPE e1 with
            | (Raise e, e2) => (Raise e, after w e2 [primary c; fallback c])
            | (Ok tok2, e2) =>
                match and_then (decode tok2) username_of_claims with
                | Raise e => (Raise e, after w e2 [primary c; fallback c])
                | Ok u2 =>
                    if pytruthy u2
                    then (Ok (conninfo u2 tok2),
                          after w e2 [primary c; fallback c])
                    else (Raise (ValueError USERNAME_ERROR),
                          after w e2 [primary c; fallback c])
                end
            end
      end
  end.
Proof.
  unfold get_entra_conninfo, bind, lift, ret, raise, and_then.
  rewrite acquire_eq.
  destruct (get_token (effective c) AZURE_DB_FOR_POSTGRES_SCOPE (env w))
    as [[tok1|e] e1]; simpl; [|done].
  destruct (decode tok1) as [claims1|e]; simpl; [|done].
  destruct (username_of_claims claims1) as [u1|e]; simpl; [|done].
  destruct (pytruthy u1) eqn:Hu1; simpl.
  { by rewrite Hu1. }
  rewrite acquire_eq. simpl.
  destruct (get_token (effective c) AZURE_MANAGEMENT_SCOPE e1)
    as [[tok2|e] e2]; simpl; rewrite ?after_after; [|done].
  destruct (decode tok2) as [claims2|e]; simpl; [|done].
  destruct (username_of_claims claims2) as [u2|e]; simpl; [|done].
  by destruct (pytruthy u2).
Qed.

Lemma and_then_Ok {A B} (r : result A) (k : A → result B) b :
  and_then r k = Ok b ↔ ∃ a, r = Ok a ∧ k a = Ok b.
Proof.
  destruct r as [a|e]; simpl; split.
  - intros H. by exists a.
  - by intros (a' & [= <-] & H).
  - done.
  - by intros (a' & [=] & _).
Qed.

(** A successful run, read backwards: the pair holds the username of the
    claims of the token acquired last. *)
Lemma derive_success c (w : World Env) d w' :
  derive c w = (Ok d, w') →
  ∃ token claims username scope e evs,
    d = conninfo username token
    ∧ decode token = Ok claims
    ∧ username_of_claims claims = Ok username
    ∧ pytruthy username = true
    ∧ get_token (effective c) scope e = (Ok token, env w')
    ∧ trace w' = trace w ++ evs
    ∧ last evs = Some (EvGetToken (effective c) scope).
Proof.
  rewrite derive_unfold.
  destruct (get_token (effective c) AZURE_DB_FOR_POSTGRES_SCOPE (env w))
    as [[tok1|e] e1] eqn:Hg1; [|done].
  destruct (and_then (decode tok1) username_of_claims) as [u1|e] eqn:Hd1;
    [|done].
  apply and_then_Ok in Hd1 as (claims1 & Hd1 & Hn1).
  destruct (pytruthy u1) eqn:Hu1.
  { intros [= <- <-].
    by exists tok1, claims1, u1, AZURE_DB_FOR_POSTGRES_SCOPE, (env w),
         [primary c]. }
  destruct (get_token (effective c) AZURE_MANAGEMENT_SCOPE e1)
    as [[tok2|e] e2] eqn:Hg2; [|done].
  destruct (and_then (decode tok2) username_of_claims) as [u2|e] eqn:Hd2;
    [|done].
  apply and_then_Ok in Hd2 as (claims2 & Hd2 & Hn2).
  destruct (pytruthy u2) eqn:Hu2; [|done].
  intros [= <- <-].
  by exists tok2, claims2, u2, AZURE_MANAGEMENT_SCOPE, e1,
       [primary c; fallback c].
Qed.


(** C7. When the primary-scope token does not decode, the deriver raises
    the decoding error after that one acquisition; and a run that did ask
    for a management-scope token had decoded the primary token and found
    no username in its claims. *)
Theorem decode_failure_aborts_before_fallback (c : option credential) (w : World Env) :
  (∀ tok1 e1 err,
      get_token (effective c) AZURE_DB_FOR_POSTGRES_SCOPE (env w) = (Ok tok1, e1) →
      decode tok1 = Raise err →
      derive c w = (Raise err, after w e1 [primary c]))
  ∧ (∀ r w' evs,
        derive c w = (r, w') →
        trace w' = trace w ++ evs →
        fallback c ∈ evs →
        ∃ tok1 e1 claims1 u1,
          get_token (effective c) AZURE_DB_FOR_POSTGRES_SCOPE (env w) = (Ok tok1, e1)
          ∧ decode tok1 = Ok claims1
          ∧ username_of_claims claims1 = Ok u1
          ∧ pytruthy u1 = false).
Proof.
  split.
  - intros tok1 e1 err Hg1 Hd1. by rewrite derive_unfold, Hg1, Hd1.
  - intros r w' evs Hrun Htr Hin. rewrite derive_unfold in Hrun.
    assert (∀ e1, trace (after w e1 [primary c]) = trace w ++ evs → False)
      as Hone.
    { intros e1. simpl. intros <-%app_inv_head.
      apply list_elem_of_singleton in Hin. discriminate Hin. }
    destruct (get_token (effective c) AZURE_DB_FOR_POSTGRES_SCOPE (env w))
      as [[tok1|e] e1] eqn:Hg1.
    2:{ injection Hrun as <- <-. by destruct (Hone e1). }
    destruct (and_then (decode tok1) username_of_claims) as [u1|e] eqn:Hd1.
    2:{ injection Hrun as <- <-. by destruct (Hone e1). }
    apply and_then_Ok in Hd1 as (claims1 & Hd1 & Hn1).
    destruct (pytruthy u1) eqn:Hu1.
    { injection Hrun as <- <-. by destruct (Hone e1). }
    by exists tok1, e1, claims1, u1.
Qed.



Lemma dict_get_delete_ne (d : gmap string pyval) k k' :
  k ≠ k' → dict_get (delete k d) k' = dict_get d k'.
Proof. intros Hne. unfold dict_get. by rewrite lookup_delete_ne. Qed.

Lemma union_insert_absorb (d m : gmap string pyval) k v :
  is_Some (d !! k) → d ∪ <[k:=v]> m = d ∪ m.
Proof.
  intros [x Hx]. apply map_eq. intros i. rewrite !lookup_union.
  destruct (decide (k = i)) as [<-|Hne].
  - rewrite Hx, lookup_insert_eq. by destruct (m !! k).
  - by rewrite lookup_insert_ne.
Qed.

(** Past the validation of line 185, the credential that derives is the
    supplied one when it is a credential, and the default otherwise. *)
Lemma validated_credential v :
  pytruthy v && negb (isinstance_credential v) = false →
  as_credential (if pytruthy v then v else PCred get_default_azure_credentials)
  = Some (effective (as_credential v)).
Proof.
  destruct v; try done; unfold isinstance_credential;
    rewrite andb_true_r; by intros ->.
Qed.

(** C1. With a non-empty [user] and a non-empty [password] in the request
    (and a credential that passes validation), [connect] derives nothing
    and calls nothing: it raises [UnboundLocalError] for [entra_conninfo]
    at line 194, so the request is not forwarded. *)
Theorem connect_explicit_credentials_unbound
    (args : list pyval) (kwargs : gmap string pyval) (w : World Env) :
  pytruthy (dict_get kwargs "credential")
    && negb (isinstance_credential (dict_get kwargs "credential")) = false →
  pytruthy (dict_get kwargs "user") = true →
  pytruthy (dict_get kwargs "password") = true →
  connect_ args kwargs w = (Raise (UnboundLocalError "entra_conninfo"), w).
Proof.
  intros Hvalid Huser Hpassword. unfold connect.
  rewrite Hvalid, !dict_get_delete_ne, Huser, Hpassword by done.
  reflexivity.
Qed.

(** The call that reaches the driver when [user] or [password] is missing
    and the derivation succeeds: the derived mapping merged over the
    request.  Both [user] and [password] of that call are the derived ones,
    whatever the request held; every other parameter is forwarded as it
    came. *)
Lemma connect_forwarded_call
    (args : list pyval) (kwargs d : gmap string pyval) (w w1 : World Env) :
  pytruthy (dict_get kwargs "credential")
    && negb (isinstance_credential (dict_get kwargs "credential")) = false →
  pytruthy (dict_get kwargs "user")
    && pytruthy (dict_get kwargs "password") = false →
  derive (Some (effective (as_credential (dict_get kwargs "credential")))) w
  = (Ok d, w1) →
  let forwarded := d ∪ delete "credential" kwargs in
  connect_ args kwargs w
  = (fst (base_connect args forwarded (env w1)),
     after w1 (snd (base_connect args forwarded (env w1)))
       [EvConnect args forwarded])
  ∧ forwarded !! "user" = d !! "user"
  ∧ forwarded !! "password" = d !! "password"
  ∧ ∀ k, k ≠ "user" → k ≠ "password" →
         forwarded !! k = delete "credential" kwargs !! k.
Proof.
  intros Hvalid Hmissing Hrun forwarded.
  destruct (derive_success _ _ _ _ Hrun)
    as (token & claims & u & ? & ? & ? & Hd & _).
  unfold conninfo in Hd.
  assert (d !! "user" = Some u) as Hu by by rewrite Hd.
  assert (d !! "password" = Some (PStr token)) as Hp by by rewrite Hd.
  assert (dom d = {[ "user"; "password" ]}) as Hdom.
  { by rewrite Hd, dom_insert_L, dom_singleton_L. }
  clear Hd.
  split; [|split; [|split]].
  - unfold connect. rewrite Hvalid, !dict_get_delete_ne by done.
    assert (negb (pytruthy (dict_get kwargs "user"))
            || negb (pytruthy (dict_get kwargs "password")) = true) as ->.
    { rewrite <- negb_andb. by rewrite Hmissing. }
    rewrite validated_credential by done.
    unfold bind at 1. rewrite Hrun.
    unfold dict_item. rewrite Hp, Hu. unfold bind, ret, call_connect, after.
    subst forwarded.
    destruct (negb (pytruthy (dict_get (<["password":=PStr token]> _) "user")));
      cbv beta iota; rewrite !union_insert_absorb by eauto;
      by destruct (base_connect args _ (env w1)).
  - rewrite Hu. by apply lookup_union_Some_l.
  - rewrite Hp. by apply lookup_union_Some_l.
  - intros k Hk1 Hk2. apply lookup_union_r.
    apply not_elem_of_dom.
    rewrite Hdom, elem_of_union, !elem_of_singleton. by intros [?|?].
Qed.

(** C2. When [user] or [password] is missing or empty and the derivation
    succeeds, the call that reaches the driver always carries the derived
    token as [password], also when the request held a password; a missing
    [user] is filled with the derived username; every parameter other than
    [user] and [password] is forwarded as it came. *)
Theorem connect_uses_derived_password
    (args : list pyval) (kwargs d : gmap string pyval) (w w1 : World Env) :
  pytruthy (dict_get kwargs "credential")
    && negb (isinstance_credential (dict_get kwargs "credential")) = false →
  pytruthy (dict_get kwargs "user")
    && pytruthy (dict_get kwargs "password") = false →
  derive (Some (effective (as_credential (dict_get kwargs "credential")))) w
  = (Ok d, w1) →
  ∃ forwarded token,
    connect_ args kwargs w
    = (fst (base_connect args forwarded (env w1)),
       after w1 (snd (base_connect args forwarded (env w1)))
         [EvConnect args forwarded])
    ∧ d !! "password" = Some (PStr token)
    ∧ forwarded !! "password" = Some (PStr token)
    ∧ (pytruthy (dict_get kwargs "user") = false →
       forwarded !! "user" = d !! "user")
    ∧ ∀ k, k ≠ "user" → k ≠ "password" →
           forwarded !! k = delete "credential" kwargs !! k.
Proof.
  intros Hvalid Hmissing Hrun.
  destruct (connect_forwarded_call args kwargs d w w1 Hvalid Hmissing Hrun)
    as (Hcall & Huser & Hpassword & Hother).
  destruct (derive_success _ _ _ _ Hrun)
    as (token & claims & username & ? & ? & ? & -> & _).
  exists (conninfo username token ∪ delete "credential" kwargs), token.
  split; [exact Hcall|]. split; [done|].
  split; [by rewrite Hpassword|]. split; [by intros _|exact Hother].
Qed.


End ProgramFacts.

(** ** The theorems at work on concrete requests *)


Lemma decode_failure_aborts_before_fallback_witness :
  Demo.derive None (Demo.start [Ok "not-a-token"; Ok Demo.TOKEN_BOB])
  = (Raise IndexError,
     {| env := [Ok Demo.TOKEN_BOB];
        trace := [EvGetToken DefaultAzureCredential AZURE_DB_FOR_POSTGRES_SCOPE] |}).
Proof.
  apply (proj1 (decode_failure_aborts_before_fallback
                  Demo.json_loads Demo.Env Demo.get_token None
                  (Demo.start [Ok "not-a-token"; Ok Demo.TOKEN_BOB]))
           "not-a-token" [Ok Demo.TOKEN_BOB] IndexError);
    vm_compute; reflexivity.
Defined.




(** The request of the spec's example: [user] and [password] both given. *)
Lemma connect_explicit_credentials_unbound_witness :
  Demo.connect [] Demo.EXPLICIT_REQUEST (Demo.start [Ok Demo.TOKEN_BOB])
  = (Raise (UnboundLocalError "entra_conninfo"), Demo.start [Ok Demo.TOKEN_BOB]).
Proof.
  apply (connect_explicit_credentials_unbound
           Demo.json_loads Demo.Env unit Demo.get_token Demo.base_connect);
    vm_compute; reflexivity.
Defined.

(** A request with [user] alone: the token becomes the password. *)
Lemma connect_uses_derived_password_witness :
  ∃ forwarded token,
    Demo.connect [] Demo.USER_ONLY_REQUEST (Demo.start [Ok Demo.TOKEN_BOB])
    = (Ok tt,
       {| env := [];
          trace := [EvGetToken DefaultAzureCredential AZURE_DB_FOR_POSTGRES_SCOPE;
                    EvConnect [] forwarded] |})
    ∧ conninfo (PStr "bob") Demo.TOKEN_BOB !! "password" = Some (PStr token)
    ∧ forwarded !! "password" = Some (PStr token)
    ∧ (pytruthy (dict_get Demo.USER_ONLY_REQUEST "user") = false →
       forwarded !! "user" = conninfo (PStr "bob") Demo.TOKEN_BOB !! "user")
    ∧ ∀ k, k ≠ "user" → k ≠ "password" →
           forwarded !! k = delete "credential" Demo.USER_ONLY_REQUEST !! k.
Proof.
  exact (connect_uses_derived_password
           Demo.json_loads Demo.Env unit Demo.get_token Demo.base_connect
           [] Demo.USER_ONLY_REQUEST
           (conninfo (PStr "bob") Demo.TOKEN_BOB)
           (Demo.start [Ok Demo.TOKEN_BOB])
           {| env := [];
              trace := [EvGetToken DefaultAzureCredential
                          AZURE_DB_FOR_POSTGRES_SCOPE] |}
           eq_refl eq_refl eq_refl).
Defined.

(** A request with [password] alone: the password that reaches the driver is
    the token, not the one of the request. *)
Lemma connect_replaces_supplied_password :
  pytruthy (dict_get Demo.PASSWORD_ONLY_REQUEST "user") = false
  ∧ dict_get Demo.PASSWORD_ONLY_REQUEST "password" = PStr "stale"
  ∧ Demo.connect [] Demo.PASSWORD_ONLY_REQUEST (Demo.start [Ok Demo.TOKEN_BOB])
    = (Ok tt,
       {| env := [];
          trace := [EvGetToken DefaultAzureCredential AZURE_DB_FOR_POSTGRES_SCOPE;
                    EvConnect [] Demo.PASSWORD_ONLY_FORWARDED] |})
  ∧ Demo.PASSWORD_ONLY_FORWARDED !! "password" = Some (PStr Demo.TOKEN_BOB)
  ∧ Demo.PASSWORD_ONLY_FORWARDED !! "password"
    ≠ Demo.PASSWORD_ONLY_REQUEST !! "password".
Proof.
  split; [reflexivity|]. split; [reflexivity|].
  split; [vm_compute; reflexivity|]. split; [reflexivity|].
  vm_compute. discriminate.
Qed.

(** A request with [user] alone: the user that reaches the driver is the one
    of the token, not the one of the request (line 194 merges the derived
    mapping over the request, past the guard of line 191). *)
Example connect_overrides_supplied_user :
  Demo.connect [] Demo.USER_ONLY_REQUEST (Demo.start [Ok Demo.TOKEN_BOB])
  = (Ok tt,
     {| env := [];
        trace := [EvGetToken DefaultAzureCredential AZURE_DB_FOR_POSTGRES_SCOPE;
                  EvConnect [] Demo.USER_ONLY_FORWARDED] |})
  ∧ dict_get Demo.USER_ONLY_REQUEST "user" = PStr "alice"
  ∧ Demo.USER_ONLY_FORWARDED !! "user" = Some (PStr "bob").
Proof.
  split; [vm_compute; reflexivity|]. split; reflexivity.
Qed.



(** * Further properties *)

(** ** More on strings *)

Lemma rfind_append_r c p t :
  PyStr.contains c t = true →
  PyStr.rfind c (p +:+ t) = Z.of_nat (String.length p) + PyStr.rfind c t.
Proof.
  intros Ht.
  assert (0 ≤ PyStr.rfind c t) as Hpos.
  { pose proof (PyStrFacts.rfind_range c t).
    destruct (decide (PyStr.rfind c t = -1)) as [Habs%PyStrFacts.rfind_absent|];
      [congruence|lia]. }
  induction p as [|a p IH].
  { rewrite PyStrFacts.append_nil_l. simpl String.length. lia. }
  rewrite PyStrFacts.append_cons. simpl PyStr.rfind. rewrite IH.
  destruct (Z.leb_spec 0 (Z.of_nat (String.length p) + PyStr.rfind c t));
    simpl String.length; lia.
Qed.

Lemma take_append_r p t n :
  PyStr.take (String.length p + n) (p +:+ t) = p +:+ PyStr.take n t.
Proof. induction p as [|a p IH]; simpl; [done|]. by rewrite IH. Qed.

Lemma drop_append_r p t n :
  PyStr.drop (String.length p + n) (p +:+ t) = PyStr.drop n t.
Proof. induction p as [|a p IH]; simpl; done. Qed.

Lemma lower_append s t : PyStr.lower (s +:+ t) = PyStr.lower s +:+ PyStr.lower t.
Proof. induction s as [|a s IH]; simpl; [done|]. by rewrite IH. Qed.

Lemma length_lower s : String.length (PyStr.lower s) = String.length s.
Proof. induction s as [|a s IH]; simpl; [done|]. by rewrite IH. Qed.

Lemma nonempty_append_r p t :
  PyStr.nonempty t = true → PyStr.nonempty (p +:+ t) = true.
Proof. by destruct p, t. Qed.

Lemma contains_nonempty c t : PyStr.contains c t = true → PyStr.nonempty t = true.
Proof. by destruct t. Qed.

(** ** More on principal names *)

(** X12. The part of a resource path before the last slash is compared
    without regard to case: two paths that differ only in the case of a
    leading part, and share a tail with a slash in it, parse alike. *)
Theorem parse_principal_name_prefix_case (p p' t : string) :
  PyStr.lower p = PyStr.lower p' →
  PyStr.contains PyStr.slash t = true →
  parse_principal_name (PStr (p +:+ t))
  = parse_principal_name (PStr (p' +:+ t)).
Proof.
  intros Hlower Ht.
  assert (String.length p = String.length p') as Hlen.
  { by rewrite <- (length_lower p), Hlower, length_lower. }
  pose proof (PyStrFacts.rfind_range PyStr.slash t) as Hrange.
  assert (PyStr.rfind PyStr.slash t ≠ -1) as Hfound.
  { intros Habs%PyStrFacts.rfind_absent. congruence. }
  unfold parse_principal_name. simpl pytruthy.
  rewrite !(nonempty_append_r _ _ (contains_nonempty _ _ Ht)).
  rewrite !rfind_append_r by done.
  set (i := PyStr.rfind PyStr.slash t) in *.
  unfold PyStr.slice_to, PyStr.slice_from.
  replace (Z.to_nat (Z.of_nat (String.length p) + i))
    with (String.length p + Z.to_nat i)%nat by lia.
  replace (Z.to_nat (Z.of_nat (String.length p) + i + 1))
    with (String.length p + Z.to_nat (i + 1))%nat by lia.
  replace (Z.to_nat (Z.of_nat (String.length p') + i))
    with (String.length p' + Z.to_nat i)%nat by lia.
  replace (Z.to_nat (Z.of_nat (String.length p') + i + 1))
    with (String.length p' + Z.to_nat (i + 1))%nat by lia.
  rewrite !take_append_r, !drop_append_r, !lower_append, Hlower, Hlen.
  reflexivity.
Qed.

Lemma parse_principal_name_prefix_case_witness :
  parse_principal_name
    (PStr ("/PROVIDERS/MICROSOFT.MANAGEDIDENTITY/USERASSIGNEDIDENTITIES" +:+ "/My-App"))
  = parse_principal_name
      (PStr ("/providers/microsoft.managedidentity/userassignedidentities" +:+ "/My-App")).
Proof.
  apply parse_principal_name_prefix_case; reflexivity.
Defined.

(** X11. A path in the documented format, whatever the subscription and
    the resource group, yields its last component when that is not empty
    and has no slash, with its case kept. *)
Theorem parse_principal_name_resource_path (subId resourceGroup name : string) :
  name ≠ EmptyString →
  PyStr.contains PyStr.slash name = false →
  parse_principal_name (PStr (resource_path subId resourceGroup name))
  = Ok (PStr name).
Proof.
  intros Hname Hslash. apply parse_principal_name_complete.
  unfold resource_path, is_principal_name_of.
  split; [done|]. split.
  { rewrite PyStrFacts.contains_append. reflexivity. }
  exists ("/subscriptions/" +:+ subId +:+ "/resourcegroups/" +:+ resourceGroup
          +:+ "/providers/Microsoft.ManagedIdentity/userAssignedIdentities").
  split.
  { rewrite !PyStrFacts.append_assoc. reflexivity. }
  split; [done|]. split; [done|].
  exists (PyStr.lower ("/subscriptions/" +:+ subId +:+ "/resourcegroups/"
                       +:+ resourceGroup +:+ "/")).
  replace ("/subscriptions/" +:+ subId +:+ "/resourcegroups/" +:+ resourceGroup
           +:+ "/providers/Microsoft.ManagedIdentity/userAssignedIdentities")
    with (("/subscriptions/" +:+ subId +:+ "/resourcegroups/" +:+ resourceGroup
           +:+ "/")
          +:+ "providers/Microsoft.ManagedIdentity/userAssignedIdentities").
  2:{ rewrite !PyStrFacts.append_assoc. reflexivity. }
  rewrite lower_append. reflexivity.
Qed.

Lemma parse_principal_name_resource_path_witness :
  parse_principal_name
    (PStr (resource_path "0000-11" "Prod/West" "My-App"))
  = Ok (PStr "My-App").
Proof.
  apply parse_principal_name_resource_path; [discriminate|reflexivity].
Defined.

(** ** More on decoding tokens *)

Lemma replicate_add a n m :
  0 ≤ n → 0 ≤ m →
  PyStr.replicate a n +:+ PyStr.replicate a m = PyStr.replicate a (n + m).
Proof.
  intros Hn Hm. unfold PyStr.replicate.
  replace (Z.to_nat (n + m)) with (Z.to_nat n + Z.to_nat m)%nat by lia.
  induction (Z.to_nat n) as [|k IH]; simpl; [apply PyStrFacts.append_nil_l|].
  rewrite PyStrFacts.append_cons. by f_equal.
Qed.

Lemma padding_no_dot n :
  PyStr.contains PyStr.dot (PyStr.replicate PyStr.equals_sign n) = false.
Proof.
  unfold PyStr.replicate. induction (Z.to_nat n) as [|k IH]; simpl; done.
Qed.

Lemma a2b_loop_pads_after_two l w m :
  2 ≤ m → Base64.a2b_loop 2 l 0 w (PyStr.replicate PyStr.equals_sign m) = Ok [].
Proof.
  intros Hm. replace m with (m - 2 + 1 + 1) by lia.
  rewrite !Base64Facts.replicate_S by lia. reflexivity.
Qed.

Lemma a2b_loop_pads_after_three l w m :
  1 ≤ m → Base64.a2b_loop 3 l 0 w (PyStr.replicate PyStr.equals_sign m) = Ok [].
Proof.
  intros Hm. replace m with (m - 1 + 1) by lia.
  rewrite !Base64Facts.replicate_S by lia. reflexivity.
Qed.

(** An encoding followed by at least its canonical padding decodes to the
    encoded bytes, however much padding follows. *)
Lemma a2b_encoded_enough_padding bs m w :
  Forall is_byte bs →
  (4 - Z.of_nat (String.length (Base64.urlsafe_b64encode_nopad bs)) mod 4) mod 4
  ≤ m →
  Base64.a2b_loop 0 0 0 w
    (Base64.translate (Base64.urlsafe_b64encode_nopad bs)
     +:+ PyStr.replicate PyStr.equals_sign m)
  = Ok bs.
Proof.
  revert w.
  induction bs as [|a|a b|a b c rest IH] using Base64Facts.list_ind3; intros w.
  - intros _ _. apply Base64Facts.a2b_loop_only_padding.
  - intros [Ha _]%Forall_cons Hm.
    destruct (Base64Facts.first_byte a 0 Ha) as ((H0 & _ & H1) & _ & Hbyte & _);
      [done|].
    simpl Base64.urlsafe_b64encode_nopad in *. simpl Base64.translate.
    rewrite !PyStrFacts.append_cons.
    rewrite (Base64Facts.a2b_loop_pair _ _ _ _ _ _ _
               (proj1 (Base64Facts.alphabet_char_is_data _ H0))
               (proj1 (Base64Facts.alphabet_char_is_data _ H1))).
    rewrite PyStrFacts.append_nil_l, a2b_loop_pads_after_two, Hbyte; [done|].
    exact Hm.
  - intros [Ha [Hb _]%Forall_cons]%Forall_cons Hm.
    destruct (Base64Facts.first_byte a b Ha Hb)
      as ((H0 & H1 & _) & Hbyte0 & _ & Hleft).
    destruct (Base64Facts.second_byte b 0 Hb) as ((_ & H2) & _ & Hbyte1 & _);
      [done|].
    simpl Base64.urlsafe_b64encode_nopad in *. simpl Base64.translate.
    rewrite !PyStrFacts.append_cons.
    rewrite (Base64Facts.a2b_loop_triple _ _ _ _ _ _ _ _ _
               (proj1 (Base64Facts.alphabet_char_is_data _ H0))
               (proj1 (Base64Facts.alphabet_char_is_data _ H1))
               (proj1 (Base64Facts.alphabet_char_is_data _ H2))).
    rewrite PyStrFacts.append_nil_l, a2b_loop_pads_after_three, Hbyte0 by exact Hm.
    unfold byte1. by rewrite Hleft, Hbyte1.
  - intros [Ha [Hb [Hc Hrest]%Forall_cons]%Forall_cons]%Forall_cons.
    destruct (Base64Facts.first_byte a b Ha Hb)
      as ((H0 & H1 & _) & Hbyte0 & _ & Hleft1).
    destruct (Base64Facts.second_byte b c Hb Hc)
      as ((H2 & _) & Hbyte1 & _ & Hleft2).
    destruct (Base64Facts.third_byte c Hc) as (H3 & Hbyte2).
    rewrite Base64Facts.encode_three, Base64Facts.length_mod4_quad. intros Hm.
    simpl Base64.translate. rewrite !PyStrFacts.append_cons.
    rewrite (Base64Facts.a2b_loop_quad _ _ _ _ _ _ _ _ _ _ _
               (proj1 (Base64Facts.alphabet_char_is_data _ H0))
               (proj1 (Base64Facts.alphabet_char_is_data _ H1))
               (proj1 (Base64Facts.alphabet_char_is_data _ H2))
               (proj1 (Base64Facts.alphabet_char_is_data _ H3))).
    rewrite (IH _ Hrest Hm), Hbyte0. unfold byte1, byte2.
    by rewrite Hleft1, Hbyte1, Hleft2, Hbyte2.
Qed.

(** X7. A token without a dot has no second segment: [decode_jwt] raises
    [IndexError], whatever the token holds otherwise (the empty token
    included). *)
Theorem decode_jwt_without_dot
    (json_loads : list Z → result pyval) (token : string) :
  PyStr.contains PyStr.dot token = false →
  decode_jwt json_loads token = Raise IndexError.
Proof.
  intros Hdot. unfold decode_jwt. by rewrite (split_no_separator _ _ Hdot).
Qed.

Lemma decode_jwt_without_dot_witness :
  decode_jwt Demo.json_loads "eyJ1cG4iOiJib2IifQ" = Raise IndexError.
Proof. apply decode_jwt_without_dot. reflexivity. Defined.

(** X8. [decode_jwt] reads the second segment and nothing else: the header
    and everything after the second dot, further dots included, can change
    or be missing altogether without changing the result. *)
Theorem decode_jwt_reads_second_segment
    (json_loads : list Z → result pyval)
    (header header' payload rest rest' : string) :
  PyStr.contains PyStr.dot header = false →
  PyStr.contains PyStr.dot header' = false →
  PyStr.contains PyStr.dot payload = false →
  decode_jwt json_loads
    (header +:+ String PyStr.dot (payload +:+ String PyStr.dot rest))
  = decode_jwt json_loads
      (header' +:+ String PyStr.dot (payload +:+ String PyStr.dot rest'))
  ∧ decode_jwt json_loads
      (header +:+ String PyStr.dot (payload +:+ String PyStr.dot rest))
    = decode_jwt json_loads (header' +:+ String PyStr.dot payload).
Proof.
  intros Hh Hh' Hp. unfold decode_jwt.
  rewrite (split_first_segment _ header _ Hh), !(split_first_segment _ header' _ Hh'),
    !(split_first_segment _ payload _ Hp), (split_no_separator _ payload Hp).
  done.
Qed.

Lemma decode_jwt_reads_second_segment_witness :
  decode_jwt Demo.json_loads ("h" +:+ String PyStr.dot ("e30" +:+ String PyStr.dot "s"))
  = decode_jwt Demo.json_loads
      ("other" +:+ String PyStr.dot ("e30" +:+ String PyStr.dot "sig.more.dots"))
  ∧ decode_jwt Demo.json_loads ("h" +:+ String PyStr.dot ("e30" +:+ String PyStr.dot "s"))
    = decode_jwt Demo.json_loads ("other" +:+ String PyStr.dot "e30").
Proof. apply decode_jwt_reads_second_segment; reflexivity. Defined.

(** X9. A payload with a character outside ASCII is refused before any
    decoding: [decode_jwt] raises the [ValueError] of
    [urlsafe_b64decode]. *)
Theorem decode_jwt_non_ascii_payload
    (json_loads : list Z → result pyval)
    (header payload rest : string) :
  PyStr.contains PyStr.dot header = false →
  PyStr.contains PyStr.dot payload = false →
  Base64.is_ascii payload = false →
  decode_jwt json_loads
    (header +:+ String PyStr.dot (payload +:+ String PyStr.dot rest))
  = Raise (ValueError Base64.NOT_ASCII).
Proof.
  intros Hh Hp Hascii. unfold decode_jwt.
  rewrite (split_payload _ _ _ Hh Hp). cbv zeta.
  unfold Base64.urlsafe_b64decode.
  by rewrite Base64Facts.is_ascii_append, Hascii.
Qed.

Lemma decode_jwt_non_ascii_payload_witness :
  decode_jwt Demo.json_loads
    ("h" +:+ String PyStr.dot
       (String "233"%char "30" +:+ String PyStr.dot "s"))
  = Raise (ValueError Base64.NOT_ASCII).
Proof. apply decode_jwt_non_ascii_payload; reflexivity. Defined.

(** The payload of an issued token has no dot, and with the padding of
    [decode_jwt] it decodes to the bytes of the claims document. *)
Lemma issued_payload_decodes (claims_json : list Z) (pads : Z) :
  Forall is_byte claims_json →
  0 ≤ pads →
  let payload :=
    Base64.urlsafe_b64encode_nopad claims_json
    +:+ PyStr.replicate PyStr.equals_sign pads in
  PyStr.contains PyStr.dot payload = false
  ∧ Base64.urlsafe_b64decode (payload +:+ jwt_padding payload) = Ok claims_json.
Proof.
  intros Hbytes Hpads payload. subst payload.
  destruct (Base64Facts.encode_in_alphabet _ Hbytes) as [Halpha _].
  split.
  { by rewrite PyStrFacts.contains_append,
      (Base64Facts.all_in_alphabet_no_dot _ Halpha), padding_no_dot. }
  unfold jwt_padding.
  rewrite PyStrFacts.length_append, Base64Facts.length_replicate.
  set (n := Z.of_nat (String.length (Base64.urlsafe_b64encode_nopad claims_json)
                      + Z.to_nat pads)).
  pose proof (Z.mod_pos_bound n 4) as Hbound.
  rewrite PyStrFacts.append_assoc, replicate_add by lia.
  rewrite Base64Facts.urlsafe_b64decode_padded by done.
  rewrite a2b_encoded_enough_padding; [done|done|].
  subst n. rewrite Nat2Z.inj_add, Z2Nat.id by lia.
  Z.div_mod_to_equations. lia.
Qed.

(** X10. Whatever number of padding characters the issuer left on the
    payload, none, the canonical ones or more, [decode_jwt] hands the
    encoded bytes to [json.loads]; a payload whose length is a multiple of
    four already is padded with four more and decodes all the same. *)
Theorem decode_jwt_issued_token
    (json_loads : list Z → result pyval)
    (header signature : string) (claims_json : list Z) (pads : Z) :
  PyStr.contains PyStr.dot header = false →
  Forall is_byte claims_json →
  0 ≤ pads →
  decode_jwt json_loads (issue_token header claims_json pads signature)
  = json_loads claims_json.
Proof.
  intros Hheader Hbytes Hpads.
  destruct (issued_payload_decodes claims_json pads Hbytes Hpads)
    as [Hdot Hdecoded].
  unfold decode_jwt, issue_token.
  rewrite (split_payload _ _ _ Hheader Hdot). cbv zeta.
  by rewrite Hdecoded.
Qed.

Lemma decode_jwt_issued_token_witness :
  decode_jwt Demo.json_loads (issue_token "h" Demo.BOB_CLAIMS 2 "s")
  = Ok (PDict {[ "upn" := PStr "bob" ]}).
Proof.
  apply (decode_jwt_issued_token Demo.json_loads "h" "s" Demo.BOB_CLAIMS 2);
    [reflexivity| |lia].
  unfold is_byte. repeat constructor; done.
Defined.

(** ** More on the deriver and the bootstrap adapter *)

Section MoreProgramFacts.

Variable json_loads : list Z → result pyval.
Variable Env : Type.
Variable Conn : Type.
Variable get_token : credential → string → Env → result string * Env.
Variable base_connect :
  list pyval → gmap string pyval → Env → result Conn * Env.

Abbreviation decode := (decode_jwt json_loads).
Abbreviation derive := (get_entra_conninfo json_loads Env get_token).
Abbreviation connect_ :=
  (connect json_loads Env Conn get_token base_connect).
Abbreviation primary c := (EvGetToken (effective c) AZURE_DB_FOR_POSTGRES_SCOPE).
Abbreviation fallback c := (EvGetToken (effective c) AZURE_MANAGEMENT_SCOPE).

(** The calls of one run of the deriver. *)
Lemma derive_trace c (w : World Env) r w' :
  derive c w = (r, w') →
  trace w' = trace w ++ [primary c]
  ∨ trace w' = trace w ++ [primary c; fallback c].
Proof.
  rewrite derive_unfold.
  repeat match goal with
         | |- context [match ?x with _ => _ end] => destruct x
         end; intros [= <- <-]; auto.
Qed.

(** One run of [connect], by its three branches. *)
Lemma connect_unfold args kwargs (w : World Env) :
  connect_ args kwargs w =
  if pytruthy (dict_get kwargs "credential")
     && negb (isinstance_credential (dict_get kwargs "credential"))
  then (Raise (ValueError CREDENTIAL_ERROR), w)
  else if pytruthy (dict_get kwargs "user")
          && pytruthy (dict_get kwargs "password")
  then (Raise (UnboundLocalError "entra_conninfo"), w)
  else
    match derive (Some (effective (as_credential (dict_get kwargs "credential")))) w with
    | (Raise e, w1) => (Raise e, w1)
    | (Ok d, w1) =>
        let forwarded := d ∪ delete "credential" kwargs in
        (fst (base_connect args forwarded (env w1)),
         after w1 (snd (base_connect args forwarded (env w1)))
           [EvConnect args forwarded])
    end.
Proof.
  destruct (pytruthy (dict_get kwargs "credential")
            && negb (isinstance_credential (dict_get kwargs "credential")))
    eqn:Hvalid.
  { unfold connect. by rewrite Hvalid. }
  destruct (pytruthy (dict_get kwargs "user")
            && pytruthy (dict_get kwargs "password")) eqn:Hmissing.
  { apply andb_true_iff in Hmissing as [Hu Hp]. unfold connect.
    rewrite Hvalid, !dict_get_delete_ne, Hu, Hp by done. reflexivity. }
  destruct (derive _ w) as [[d|e] w1] eqn:Hrun.
  { by apply (connect_forwarded_call json_loads Env Conn get_token base_connect). }
  unfold connect. rewrite Hvalid, !dict_get_delete_ne by done.
  assert (negb (pytruthy (dict_get kwargs "user"))
          || negb (pytruthy (dict_get kwargs "password")) = true) as ->.
  { rewrite <- negb_andb. by rewrite Hmissing. }
  rewrite validated_credential by done.
  unfold bind at 1. by rewrite Hrun.
Qed.

(** X1. When the claims of the primary-scope token give a username, the
    deriver returns it with that token after this one acquisition: the
    management scope is not asked. *)
Theorem derive_primary_success (c : option credential) (w : World Env)
    tok e1 claims username :
  get_token (effective c) AZURE_DB_FOR_POSTGRES_SCOPE (env w) = (Ok tok, e1) →
  decode tok = Ok claims →
  username_of_claims claims = Ok username →
  pytruthy username = true →
  derive c w = (Ok (conninfo username tok), after w e1 [primary c]).
Proof.
  intros Hg Hd Hn Hu. rewrite derive_unfold, Hg, Hd. simpl.
  by rewrite Hn, Hu.
Qed.

(** X2. An error of the identity provider is returned as it is, and ends
    the run: at the primary acquisition nothing else is acquired; at the
    fallback acquisition the run stops after the two. *)
Theorem derive_provider_error (c : option credential) (w : World Env) :
  (∀ err e1,
      get_token (effective c) AZURE_DB_FOR_POSTGRES_SCOPE (env w) = (Raise err, e1) →
      derive c w = (Raise err, after w e1 [primary c]))
  ∧ (∀ tok1 e1 claims1 u1 err e2,
        get_token (effective c) AZURE_DB_FOR_POSTGRES_SCOPE (env w) = (Ok tok1, e1) →
        decode tok1 = Ok claims1 →
        username_of_claims claims1 = Ok u1 →
        pytruthy u1 = false →
        get_token (effective c) AZURE_MANAGEMENT_SCOPE e1 = (Raise err, e2) →
        derive c w = (Raise err, after w e2 [primary c; fallback c])).
Proof.
  split.
  - intros err e1 Hg. by rewrite derive_unfold, Hg.
  - intros tok1 e1 claims1 u1 err e2 Hg1 Hd1 Hn1 Hu1 Hg2.
    rewrite derive_unfold, Hg1, Hd1. simpl. by rewrite Hn1, Hu1, Hg2.
Qed.

(** X3. When the fallback token does not decode, the deriver raises the
    decoding error itself, not the username error. *)
Theorem derive_fallback_decode_error (c : option credential) (w : World Env)
    tok1 e1 claims1 u1 tok2 e2 err :
  get_token (effective c) AZURE_DB_FOR_POSTGRES_SCOPE (env w) = (Ok tok1, e1) →
  decode tok1 = Ok claims1 →
  username_of_claims claims1 = Ok u1 →
  pytruthy u1 = false →
  get_token (effective c) AZURE_MANAGEMENT_SCOPE e1 = (Ok tok2, e2) →
  decode tok2 = Raise err →
  derive c w = (Raise err, after w e2 [primary c; fallback c]).
Proof.
  intros Hg1 Hd1 Hn1 Hu1 Hg2 Hd2.
  rewrite derive_unfold, Hg1, Hd1. simpl. by rewrite Hn1, Hu1, Hg2, Hd2.
Qed.

(** X14. Nothing checks the type of the claims.  When the claims document
    is no object, reading the username raises [AttributeError]; whatever
    error reading the username raises, the deriver raises it after the
    acquisition of the token at hand, and an error on the primary token's
    claims does not start the fallback. *)
Theorem derive_username_error (c : option credential) (w : World Env) :
  (∀ claims,
      (∀ members, claims ≠ PDict members) →
      username_of_claims claims = Raise (AttributeError claims "get"))
  ∧ (∀ tok1 e1 claims1 err,
        get_token (effective c) AZURE_DB_FOR_POSTGRES_SCOPE (env w) = (Ok tok1, e1) →
        decode tok1 = Ok claims1 →
        username_of_claims claims1 = Raise err →
        derive c w = (Raise err, after w e1 [primary c]))
  ∧ (∀ tok1 e1 claims1 u1 tok2 e2 claims2 err,
        get_token (effective c) AZURE_DB_FOR_POSTGRES_SCOPE (env w) = (Ok tok1, e1) →
        decode tok1 = Ok claims1 →
        username_of_claims claims1 = Ok u1 →
        pytruthy u1 = false →
        get_token (effective c) AZURE_MANAGEMENT_SCOPE e1 = (Ok tok2, e2) →
        decode tok2 = Ok claims2 →
        username_of_claims claims2 = Raise err →
        derive c w = (Raise err, after w e2 [primary c; fallback c])).
Proof.
  split; [|split].
  - intros claims Hno. destruct claims; try done. by destruct (Hno members).
  - intros tok1 e1 claims1 err Hg1 Hd1 Hn1.
    rewrite derive_unfold, Hg1, Hd1. simpl. by rewrite Hn1.
  - intros tok1 e1 claims1 u1 tok2 e2 claims2 err Hg1 Hd1 Hn1 Hu1 Hg2 Hd2 Hn2.
    rewrite derive_unfold, Hg1, Hd1. simpl. rewrite Hn1, Hu1, Hg2, Hd2.
    simpl. by rewrite Hn2.
Qed.

(** X4. When the derivation fails, [connect] raises the same error and the
    driver is not called. *)
Theorem connect_derivation_error
    (args : list pyval) (kwargs : gmap string pyval) (w w1 : World Env) err :
  pytruthy (dict_get kwargs "credential")
    && negb (isinstance_credential (dict_get kwargs "credential")) = false →
  pytruthy (dict_get kwargs "user")
    && pytruthy (dict_get kwargs "password") = false →
  derive (Some (effective (as_credential (dict_get kwargs "credential")))) w
  = (Raise err, w1) →
  connect_ args kwargs w = (Raise err, w1)
  ∧ ∃ evs, trace w1 = trace w ++ evs ∧ ∀ a k, EvConnect a k ∉ evs.
Proof.
  intros Hvalid Hmissing Hrun. split.
  - by rewrite connect_unfold, Hvalid, Hmissing, Hrun.
  - destruct (derive_trace _ _ _ _ Hrun) as [Htr|Htr]; eexists;
      (split; [exact Htr|]); intros a k Hin;
      repeat (apply elem_of_cons in Hin as [Hin|Hin]; [discriminate Hin|]);
      by apply elem_of_nil in Hin.
Qed.


(** X6. The request of [sample.py] has no [user], [password] or
    [credential]: whatever the environment holds, [connect] derives with
    the default credential, and on success the driver receives the derived
    pair together with [host], [dbname] and [sslmode] as the sample set
    them, and nothing else; what the driver returns is what [connect]
    returns. *)
Theorem connect_sample_request
    (environ : gmap string string) (args : list pyval)
    (d : gmap string pyval) (w w1 : World Env) :
  derive (Some DefaultAzureCredential) w = (Ok d, w1) →
  ∃ username token,
    d = conninfo username token
    ∧ pytruthy username = true
    ∧ let forwarded : gmap string pyval :=
        {[ "user" := username; "password" := PStr token;
           "host" := Sample.getenv environ "HOSTNAME";
           "dbname" := Sample.getenv environ "DATABASE";
           "sslmode" := PStr "require" ]} in
      connect_ args (Sample.kwargs environ) w
      = (fst (base_connect args forwarded (env w1)),
         after w1 (snd (base_connect args forwarded (env w1)))
           [EvConnect args forwarded]).
Proof.
  intros Hrun.
  destruct (derive_success _ _ _ _ _ _ _ Hrun)
    as (token & claims & username & ? & ? & ? & Hd & _ & _ & Htruthy & _).
  exists username, token. split; [exact Hd|]. split; [exact Htruthy|].
  intros forwarded.
  rewrite connect_unfold.
  change (dict_get (Sample.kwargs environ) "credential") with PNone.
  change (dict_get (Sample.kwargs environ) "user") with PNone.
  simpl pytruthy. cbv iota. simpl andb. cbv iota.
  change (effective (as_credential PNone)) with DefaultAzureCredential.
  rewrite Hrun.
  assert (d ∪ delete "credential" (Sample.kwargs environ) = forwarded) as ->;
    [|done].
  rewrite delete_id by done. rewrite Hd. unfold conninfo, forwarded.
  rewrite <- !insert_union_l, <- insert_union_singleton_l. reflexivity.
Qed.

(** X13. From the token to the driver: when the provider answers the
    primary request with a token an issuer built from a claims document
    that holds a username, a request that lacks [user] or [password] reaches
    the driver, after this one acquisition, with that username as [user] and
    the token as [password]. *)
Theorem connect_with_issued_token
    (args : list pyval) (kwargs : gmap string pyval) (w : World Env)
    (header signature : string) (claims_json : list Z) (pads : Z)
    (claims username : pyval) (e1 : Env) :
  let c := as_credential (dict_get kwargs "credential") in
  let token := issue_token header claims_json pads signature in
  pytruthy (dict_get kwargs "credential")
    && negb (isinstance_credential (dict_get kwargs "credential")) = false →
  pytruthy (dict_get kwargs "user")
    && pytruthy (dict_get kwargs "password") = false →
  get_token (effective c) AZURE_DB_FOR_POSTGRES_SCOPE (env w) = (Ok token, e1) →
  PyStr.contains PyStr.dot header = false →
  Forall is_byte claims_json →
  0 ≤ pads →
  json_loads claims_json = Ok claims →
  username_of_claims claims = Ok username →
  pytruthy username = true →
  ∃ forwarded,
    connect_ args kwargs w
    = (fst (base_connect args forwarded e1),
       after w (snd (base_connect args forwarded e1))
         [primary c; EvConnect args forwarded])
    ∧ forwarded !! "user" = Some username
    ∧ forwarded !! "password" = Some (PStr token)
    ∧ ∀ k, k ≠ "user" → k ≠ "password" →
           forwarded !! k = delete "credential" kwargs !! k.
Proof.
  intros c token Hvalid Hmissing Hget Hheader Hbytes Hpads Hjson Hname Hu.
  assert (decode token = Ok claims) as Hdecode.
  { destruct (issued_payload_decodes claims_json pads Hbytes Hpads)
      as [Hdot Hdecoded].
    unfold token, decode_jwt, issue_token.
    rewrite (split_payload _ _ _ Hheader Hdot). cbv zeta.
    by rewrite Hdecoded. }
  assert (derive (Some (effective c)) w
          = (Ok (conninfo username token), after w e1 [primary c])) as Hrun.
  { rewrite derive_unfold. change (effective (Some (effective c))) with (effective c).
    rewrite Hget, Hdecode. simpl. by rewrite Hname, Hu. }
  exists (conninfo username token ∪ delete "credential" kwargs).
  split; [|split; [by apply lookup_union_Some_l|split;
                   [by apply lookup_union_Some_l|]]].
  - rewrite connect_unfold, Hvalid, Hmissing. fold c. rewrite Hrun.
    cbv zeta. simpl env. unfold after. simpl trace. by rewrite <- app_assoc.
  - intros k Hk1 Hk2. apply lookup_union_r. unfold conninfo.
    by rewrite lookup_insert_ne, lookup_singleton_ne.
Qed.

End MoreProgramFacts.

(** ** The further theorems at work *)

Lemma derive_primary_success_witness :
  Demo.derive (Some (TokenCredential 3))
    (Demo.start [Ok Demo.TOKEN_BOB; Ok Demo.TOKEN_NO_CLAIMS])
  = (Ok (conninfo (PStr "bob") Demo.TOKEN_BOB),
     {| env := [Ok Demo.TOKEN_NO_CLAIMS];
        trace := [EvGetToken (TokenCredential 3) AZURE_DB_FOR_POSTGRES_SCOPE] |}).
Proof.
  exact (derive_primary_success Demo.json_loads Demo.Env Demo.get_token
           (Some (TokenCredential 3))
           (Demo.start [Ok Demo.TOKEN_BOB; Ok Demo.TOKEN_NO_CLAIMS])
           Demo.TOKEN_BOB [Ok Demo.TOKEN_NO_CLAIMS]
           (PDict {[ "upn" := PStr "bob" ]}) (PStr "bob")
           eq_refl eq_refl eq_refl eq_refl).
Defined.

Lemma derive_provider_error_witness :
  Demo.derive None (Demo.start [Raise (ExternalError 401); Ok Demo.TOKEN_BOB])
  = (Raise (ExternalError 401),
     {| env := [Ok Demo.TOKEN_BOB];
        trace := [EvGetToken DefaultAzureCredential AZURE_DB_FOR_POSTGRES_SCOPE] |})
  ∧ Demo.derive None
      (Demo.start [Ok Demo.TOKEN_NO_CLAIMS; Raise (ExternalError 401)])
    = (Raise (ExternalError 401),
       {| env := [];
          trace := [EvGetToken DefaultAzureCredential AZURE_DB_FOR_POSTGRES_SCOPE;
                    EvGetToken DefaultAzureCredential AZURE_MANAGEMENT_SCOPE] |}).
Proof.
  split.
  - exact (proj1 (derive_provider_error Demo.json_loads Demo.Env Demo.get_token
                    None
                    (Demo.start [Raise (ExternalError 401); Ok Demo.TOKEN_BOB]))
             (ExternalError 401) [Ok Demo.TOKEN_BOB] eq_refl).
  - exact (proj2 (derive_provider_error Demo.json_loads Demo.Env Demo.get_token
                    None
                    (Demo.start [Ok Demo.TOKEN_NO_CLAIMS; Raise (ExternalError 401)]))
             Demo.TOKEN_NO_CLAIMS [Raise (ExternalError 401)] (PDict ∅) PNone
             (ExternalError 401) [] eq_refl eq_refl eq_refl eq_refl eq_refl).
Defined.

Lemma derive_fallback_decode_error_witness :
  Demo.derive None
    (Demo.start [Ok Demo.TOKEN_NO_CLAIMS; Ok SampleRun.TOKEN_BAD_PAYLOAD])
  = (Raise (BinasciiError (Base64.invalid_length 5)),
     {| env := [];
        trace := [EvGetToken DefaultAzureCredential AZURE_DB_FOR_POSTGRES_SCOPE;
                  EvGetToken DefaultAzureCredential AZURE_MANAGEMENT_SCOPE] |}).
Proof.
  exact (derive_fallback_decode_error Demo.json_loads Demo.Env Demo.get_token
           None
           (Demo.start [Ok Demo.TOKEN_NO_CLAIMS; Ok SampleRun.TOKEN_BAD_PAYLOAD])
           Demo.TOKEN_NO_CLAIMS [Ok SampleRun.TOKEN_BAD_PAYLOAD] (PDict ∅) PNone
           SampleRun.TOKEN_BAD_PAYLOAD []
           (BinasciiError (Base64.invalid_length 5))
           eq_refl eq_refl eq_refl eq_refl eq_refl eq_refl).
Defined.

Lemma derive_username_error_witness :
  username_of_claims (PList [PStr "upn"])
  = Raise (AttributeError (PList [PStr "upn"]) "get")
  ∧ Demo.derive None
      (Demo.start [Ok SampleRun.TOKEN_NUMERIC_PATH; Ok Demo.TOKEN_BOB])
    = (Raise (AttributeError (PInt 7) "rfind"),
       {| env := [Ok Demo.TOKEN_BOB];
          trace := [EvGetToken DefaultAzureCredential
                      AZURE_DB_FOR_POSTGRES_SCOPE] |}).
Proof.
  pose proof (derive_username_error Demo.json_loads Demo.Env Demo.get_token
                None
                (Demo.start [Ok SampleRun.TOKEN_NUMERIC_PATH; Ok Demo.TOKEN_BOB]))
    as (Hget & Hprimary & _).
  split.
  - apply Hget. discriminate.
  - exact (Hprimary SampleRun.TOKEN_NUMERIC_PATH [Ok Demo.TOKEN_BOB]
             (PDict {[ "xms_mirid" := PInt 7 ]})
             (AttributeError (PInt 7) "rfind") eq_refl eq_refl eq_refl).
Defined.

Lemma connect_derivation_error_witness :
  Demo.connect [] (Sample.kwargs SampleRun.environ)
    (Demo.start [Ok Demo.TOKEN_NO_CLAIMS; Ok Demo.TOKEN_NO_CLAIMS])
  = (Raise (ValueError USERNAME_ERROR),
     {| env := [];
        trace := [EvGetToken DefaultAzureCredential AZURE_DB_FOR_POSTGRES_SCOPE;
                  EvGetToken DefaultAzureCredential AZURE_MANAGEMENT_SCOPE] |})
  ∧ ∃ evs,
      [EvGetToken DefaultAzureCredential AZURE_DB_FOR_POSTGRES_SCOPE;
       EvGetToken DefaultAzureCredential AZURE_MANAGEMENT_SCOPE]
      = [] ++ evs
      ∧ ∀ a k, EvConnect a k ∉ evs.
Proof.
  apply (connect_derivation_error
           Demo.json_loads Demo.Env unit Demo.get_token Demo.base_connect
           [] (Sample.kwargs SampleRun.environ)
           (Demo.start [Ok Demo.TOKEN_NO_CLAIMS; Ok Demo.TOKEN_NO_CLAIMS])
           {| env := [];
              trace := [EvGetToken DefaultAzureCredential AZURE_DB_FOR_POSTGRES_SCOPE;
                        EvGetToken DefaultAzureCredential AZURE_MANAGEMENT_SCOPE] |});
    vm_compute; reflexivity.
Defined.


Lemma connect_sample_request_witness :
  ∃ username token,
    conninfo (PStr "bob") Demo.TOKEN_BOB = conninfo username token
    ∧ pytruthy username = true
    ∧ Demo.connect [] (Sample.kwargs SampleRun.environ)
        (Demo.start [Ok Demo.TOKEN_BOB])
      = (Ok tt,
         {| env := [];
            trace := [EvGetToken DefaultAzureCredential AZURE_DB_FOR_POSTGRES_SCOPE;
                      EvConnect []
                        {[ "user" := username; "password" := PStr token;
                           "host" := Sample.getenv SampleRun.environ "HOSTNAME";
                           "dbname" := Sample.getenv SampleRun.environ "DATABASE";
                           "sslmode" := PStr "require" ]}] |}).
Proof.
  exact (connect_sample_request
           Demo.json_loads Demo.Env unit Demo.get_token Demo.base_connect
           SampleRun.environ [] (conninfo (PStr "bob") Demo.TOKEN_BOB)
           (Demo.start [Ok Demo.TOKEN_BOB])
           {| env := [];
              trace := [EvGetToken DefaultAzureCredential
                          AZURE_DB_FOR_POSTGRES_SCOPE] |}
           eq_refl).
Defined.

Lemma connect_with_issued_token_witness :
  ∃ forwarded,
    Demo.connect [] (Sample.kwargs SampleRun.environ)
      (Demo.start [Ok SampleRun.TOKEN_BOB_PADDED])
    = (Ok tt,
       {| env := [];
          trace := [EvGetToken DefaultAzureCredential AZURE_DB_FOR_POSTGRES_SCOPE;
                    EvConnect [] forwarded] |})
    ∧ forwarded !! "user" = Some (PStr "bob")
    ∧ forwarded !! "password" = Some (PStr SampleRun.TOKEN_BOB_PADDED)
    ∧ ∀ k, k ≠ "user" → k ≠ "password" →
           forwarded !! k
           = delete "credential" (Sample.kwargs SampleRun.environ) !! k.
Proof.
  assert (Forall is_byte Demo.BOB_CLAIMS) as Hbytes.
  { unfold is_byte. repeat constructor; done. }
  assert (0 ≤ 2) as Hpads by lia.
  exact (connect_with_issued_token
           Demo.json_loads Demo.Env unit Demo.get_token Demo.base_connect
           [] (Sample.kwargs SampleRun.environ)
           (Demo.start [Ok SampleRun.TOKEN_BOB_PADDED])
           "h" "s" Demo.BOB_CLAIMS 2
           (PDict {[ "upn" := PStr "bob" ]}) (PStr "bob") []
           eq_refl eq_refl eq_refl eq_refl Hbytes Hpads eq_refl eq_refl eq_refl).
Defined.

Example sample_request_forwarded :
  Demo.connect [] (Sample.kwargs SampleRun.environ)
    (Demo.start [Ok SampleRun.TOKEN_BOB_PADDED])
  = (Ok tt,
     {| env := [];
        trace := [EvGetToken DefaultAzureCredential AZURE_DB_FOR_POSTGRES_SCOPE;
                  EvConnect [] (SampleRun.forwarded SampleRun.TOKEN_BOB_PADDED)] |}).
Proof. vm_compute. reflexivity. Qed.
